(** * nmap_auto_banner.py: a shallow embedding and its properties

  The script is a sequential wrapper around the [nmap] binary: it obtains a
  target, checks that the tool runs, creates an output directory, picks a
  list of scan profiles and runs one shell command per picked profile.

  Layout of this development:
  - [PyStr]   : the [str] methods the script calls ([strip], [lower],
                [split(",")], [int]) and the formatting of integers;
  - [Pathlib] : [Path(..) / ..], [str(path)], [Path.resolve] and
                [Path.mkdir] over a small model of a directory tree;
  - [Proc]    : the surroundings of the process (arguments, input lines,
                clock, exit statuses of the commands it starts, directory
                tree), the trace of what it does, and the monad of
                computations that may raise;
  - [Script]  : the script itself, function by function;
  - the vocabulary of the statements, and the theorems, grouped by the
    function of the script they are about.

  What is modelled.  A Python [str] is a Rocq [string]; a character stands
  for the code point with the same number (0 to 255).  An [int] is a [Z].
  [input] raises [EOFError] when the input is exhausted; the version query
  fails when [nmap] is absent or exits with a non-zero status; a shell
  command ends with an exit status; [mkdir] fails with [ENOENT], [ENOTDIR],
  [EEXIST] or [ENAMETOOLONG], or with [ValueError] on a NUL character.  An exception that no [except] clause catches ends the run
  with a traceback and exit status 1.

  What is not modelled: signals, permissions and symbolic links, a missing
  shell, errors while writing to the terminal. *)

From Stdlib Require Import ZArith List String Ascii Bool Lia DecimalString DecimalNat.
From stdpp Require Import base tactics option list strings gmap.

Local Open Scope string_scope.
Local Open Scope Z_scope.

(* ===================================================================== *)
(** ** Python string methods *)
(* ===================================================================== *)

Module PyStr.

(** Code point of a character. *)
Definition ord (c : ascii) : N := N_of_ascii c.

(** [str.isspace] on one character, restricted to code points below 256:
    TAB, LF, VT, FF, CR, the separators FS GS RS US, SPACE, NEL and NBSP. *)
Definition isspace (c : ascii) : bool :=
  let n := ord c in
  ((9 <=? n) && (n <=? 13) || (28 <=? n) && (n <=? 32)
   || (n =? 133) || (n =? 160))%N.

Fixpoint lstrip (s : string) : string :=
  match s with
  | String c r => if isspace c then lstrip r else s
  | EmptyString => EmptyString
  end.

Fixpoint rstrip (s : string) : string :=
  match s with
  | String c r =>
      match rstrip r with
      | EmptyString => if isspace c then EmptyString else String c EmptyString
      | r' => String c r'
      end
  | EmptyString => EmptyString
  end.

(** [s.strip()] with no argument. *)
Definition strip (s : string) : string := rstrip (lstrip s).

(** [str.lower] on one character below 256: A-Z, and the Latin-1 capitals
    À-Þ without the multiplication sign. *)
Definition lower_char (c : ascii) : ascii :=
  let n := ord c in
  if ((65 <=? n) && (n <=? 90)
      || (192 <=? n) && (n <=? 222) && negb (n =? 215))%N
  then ascii_of_N (n + 32) else c.

Fixpoint lower (s : string) : string :=
  match s with
  | String c r => String (lower_char c) (lower r)
  | EmptyString => EmptyString
  end.

(** [s.split(sep)] for a one-character separator: always at least one
    piece, one more piece than there are separators. *)
Fixpoint split (sep : ascii) (s : string) : list string :=
  match s with
  | EmptyString => [EmptyString]
  | String c r =>
      if Ascii.eqb c sep then EmptyString :: split sep r
      else match split sep r with
           | piece :: pieces => String c piece :: pieces
           | [] => [String c EmptyString]
           end
  end.

(** Truth value of a string: non-empty. *)
Definition truthy (s : string) : bool :=
  match s with EmptyString => false | _ => true end.

Definition is_digit (c : ascii) : bool :=
  let n := ord c in ((48 <=? n) && (n <=? 57))%N.

Definition digit_val (c : ascii) : Z := Z.of_N (ord c) - 48.

(** The digit part of an [int] literal in base ten: digits with single
    underscores between them.  [prev_us] says that the previous character
    was an underscore, [acc] is the value read so far and [nd] the number
    of digits read so far.  Returns value and digit count. *)
Fixpoint digits_from (prev_us : bool) (acc : Z) (nd : nat) (s : string)
  : option (Z * nat) :=
  match s with
  | EmptyString => if prev_us then None else Some (acc, nd)
  | String c r =>
      if is_digit c then digits_from false (10 * acc + digit_val c) (S nd) r
      else if Ascii.eqb c "_" then
             if prev_us then None else digits_from true acc nd r
      else None
  end.

(** Unsigned part: a leading underscore and an empty digit string are
    refused.  A literal of more than 640 digits is refused when it has more
    than [max_digits] digits and that limit is not 0
    ([sys.set_int_max_str_digits]: 4300 by default since 3.11, no limit
    before; the interpreter never applies it to 640 digits or fewer). *)
Definition unsigned_from (max_digits : nat) (s : string) : option Z :=
  match s with
  | EmptyString => None
  | String c _ =>
      if is_digit c then
        match digits_from false 0 0 s with
        | Some (v, nd) =>
            if ((640 <? nd)%nat && negb (max_digits =? 0)%nat
                && (max_digits <? nd)%nat)%bool
            then None else Some v
        | None => None
        end
      else None
  end.

(** [int(s)] for a string without surrounding blanks (the script only
    calls it on [x.strip()]): [None] stands for [ValueError]. *)
Definition int (max_digits : nat) (s : string) : option Z :=
  match s with
  | String "+" r => unsigned_from max_digits r
  | String "-" r => Z.opp <$> unsigned_from max_digits r
  | _ => unsigned_from max_digits s
  end.

(** [str(n)] for an integer. *)
Definition of_Z (z : Z) : string := NilZero.string_of_int (Z.to_int z).
Definition of_nat (n : nat) : string := NilZero.string_of_uint (Nat.to_uint n).

(** [sep.join(pieces)]. *)
Fixpoint join (sep : string) (pieces : list string) : string :=
  match pieces with
  | [] => EmptyString
  | [p] => p
  | p :: rest => p +:+ sep +:+ join sep rest
  end.

(** The number of bytes of [s] in UTF-8, the encoding in which a path is
    handed to the system: one byte for a code point below 128, two above. *)
Fixpoint byte_length (s : string) : nat :=
  match s with
  | EmptyString => O
  | String c r => ((if (ord c <? 128)%N then 1 else 2) + byte_length r)%nat
  end.

(** [s] contains the character NUL. *)
Fixpoint has_nul (s : string) : bool :=
  match s with
  | EmptyString => false
  | String c r => (ord c =? 0)%N || has_nul r
  end.

(** [s.startswith(c)] for one character. *)
Definition starts_with (c : ascii) (s : string) : bool :=
  match s with String d _ => Ascii.eqb d c | EmptyString => false end.

End PyStr.


(* ===================================================================== *)
(** ** pathlib: pure paths, and directories on a model file system *)
(* ===================================================================== *)

Module Pathlib.

(** The root of a POSIX path: none, ["/"], or exactly two slashes (which
    pathlib keeps apart; three or more collapse to one). *)
Inductive root := Relative | Slash | DoubleSlash.

Record Path := MkPath { anchor : root; parts : list string }.

Fixpoint leading_slashes (s : string) : nat :=
  match s with
  | String "/" r => S (leading_slashes r)
  | _ => O
  end.

Definition root_of (s : string) : root :=
  match leading_slashes s with
  | O => Relative
  | 2%nat => DoubleSlash
  | _ => Slash
  end.

(** Components that survive parsing: empty ones and ["."] are dropped,
    [".."] is kept. *)
Definition keep_part (x : string) : bool :=
  PyStr.truthy x && negb (String.eqb x ".").

(** [Path(s)]. *)
Definition parse (s : string) : Path :=
  MkPath (root_of s) (List.filter keep_part (PyStr.split "/" s)).

(** [p / s] for a string [s]: a rooted [s] replaces [p]. *)
Definition joinpath (p : Path) (s : string) : Path :=
  let q := parse s in
  match anchor q with
  | Relative => MkPath (anchor p) (parts p ++ parts q)
  | _ => q
  end.

Definition root_str (r : root) : string :=
  match r with Relative => "" | Slash => "/" | DoubleSlash => "//" end.

(** [str(p)]. *)
Definition to_str (p : Path) : string :=
  match anchor p, parts p with
  | Relative, [] => "."
  | r, ps => root_str r +:+ PyStr.join "/" ps
  end.

(** *** The directory tree

    A location is the list of names from the entry up to the root
    directory (innermost name first); the root directory is [[]] and always
    exists.  Symbolic links and permissions are not modelled. *)
Inductive kind := Dir | File.

Definition loc := list string.

Record FS := MkFS { nodes : gmap (list string) kind; cwd : loc }.

Definition kind_at (fs : FS) (l : loc) : option kind :=
  match l with
  | [] => Some Dir
  | _ => nodes fs !! l
  end.

(** One component of a lookup: [".."] goes up (the root is its own
    parent), any other name goes down. *)
Definition step (l : loc) (c : string) : loc :=
  if String.eqb c ".." then tail l else c :: l.

(** The ways in which a call on a path fails: the four error numbers, and
    [EmbeddedNull] for the [ValueError] that Python raises, before any
    system call, for a path with a NUL character. *)
Inductive errno := ENOENT | ENOTDIR | EEXIST | ENAMETOOLONG | EmbeddedNull.

(** The limits of Linux and its usual file systems: a name of at most 255
    bytes, a path of less than 4096. *)
Definition NAME_MAX : nat := 255.
Definition PATH_MAX : nat := 4096.

(** Follow the components [cs] from [l]: every location that is left must
    be a directory, every name that is looked up in it must not be too long.
    The location reached need not exist. *)
Fixpoint walk (fs : FS) (l : loc) (cs : list string) : errno + loc :=
  match cs with
  | [] => inr l
  | c :: r =>
      match kind_at fs l with
      | Some Dir =>
          if (NAME_MAX <? PyStr.byte_length c)%nat then inl ENAMETOOLONG
          else walk fs (step l c) r
      | Some File => inl ENOTDIR
      | None => inl ENOENT
      end
  end.

Definition start (fs : FS) (p : Path) : loc :=
  match anchor p with Relative => cwd fs | _ => [] end.

(** What is wrong with a path as a string, whatever the directory tree. *)
Definition path_error (p : Path) : option errno :=
  if PyStr.has_nul (to_str p) then Some EmbeddedNull
  else if (PATH_MAX <=? PyStr.byte_length (to_str p))%nat then Some ENAMETOOLONG
  else None.

Definition locate (fs : FS) (p : Path) : errno + loc :=
  match path_error p with
  | Some e => inl e
  | None => walk fs (start fs p) (parts p)
  end.

(** The last component of [p] is a name, so that [p] can name a new entry
    (["."], ["/"] and paths that end in [".."] cannot). *)
Definition names_entry (p : Path) : bool :=
  match last (parts p) with
  | Some c => negb (String.eqb c "..")
  | None => false
  end.

(** [os.mkdir(p)]. *)
Definition os_mkdir (fs : FS) (p : Path) : errno + FS :=
  match locate fs p with
  | inl e => inl e
  | inr l =>
      match kind_at fs l with
      | Some _ => inl EEXIST
      | None =>
          if names_entry p then inr (MkFS (<[l := Dir]> (nodes fs)) (cwd fs))
          else inl ENOENT
      end
  end.

(** [p.is_dir()]: false on any error.  (Before Python 3.13 it lets the
    error of a name that is too long through; [mkdir] below raises that same
    error in that case, so that the difference does not show.) *)
Definition is_dir (fs : FS) (p : Path) : bool :=
  match locate fs p with
  | inr l => match kind_at fs l with Some Dir => true | _ => false end
  | inl _ => false
  end.

(** [p.mkdir(parents=False, exist_ok=..)]:
<<
    try: os.mkdir(self, mode)
    except FileNotFoundError: raise              # not parents
    except OSError:
        if not exist_ok or not self.is_dir(): raise
>> *)
Definition mkdir_leaf (exist_ok : bool) (fs : FS) (p : Path) : errno + FS :=
  match os_mkdir fs p with
  | inr fs' => inr fs'
  | inl ENOENT => inl ENOENT
  | inl EmbeddedNull => inl EmbeddedNull
  | inl e => if exist_ok && is_dir fs p then inr fs else inl e
  end.

(** [p.mkdir(parents=True, exist_ok=..)], by recursion on the components
    of [p] read from the last one ([rparts] is [parts p] reversed):
<<
    except FileNotFoundError:
        if not parents or self.parent == self: raise
        self.parent.mkdir(parents=True, exist_ok=True)
        self.mkdir(mode, parents=False, exist_ok=exist_ok)
>> *)
Fixpoint mkdir_parents (exist_ok : bool) (fs : FS) (a : root)
         (rparts : list string) : errno + FS :=
  let p := MkPath a (rev rparts) in
  match os_mkdir fs p with
  | inr fs' => inr fs'
  | inl ENOENT =>
      match rparts with
      | [] => inl ENOENT
      | _ :: up =>
          match mkdir_parents true fs a up with
          | inr fs1 => mkdir_leaf exist_ok fs1 p
          | inl e => inl e
          end
      end
  | inl EmbeddedNull => inl EmbeddedNull
  | inl e => if exist_ok && is_dir fs p then inr fs else inl e
  end.

(** [p.mkdir(parents=.., exist_ok=..)]. *)
Definition mkdir (parents exist_ok : bool) (fs : FS) (p : Path) : errno + FS :=
  if parents then mkdir_parents exist_ok fs (anchor p) (rev (parts p))
  else mkdir_leaf exist_ok fs p.

(** [p.resolve()]: the absolute path, from a single slash, with [".."]
    folded away (no symbolic links in the model). *)
Definition resolve (fs : FS) (p : Path) : Path :=
  MkPath Slash (rev (fold_left step (parts p) (start fs p))).

End Pathlib.



(* ===================================================================== *)
(** ** The process and its surroundings *)
(* ===================================================================== *)

Module Proc.

(** [datetime.datetime]: what [datetime.now()] returns. *)
Record datetime := MkDatetime {
  year : nat; month : nat; day : nat;
  hour : nat; minute : nat; second : nat; microsecond : nat }.

(** A two-digit field of [strftime], zero padded. *)
Definition pad2 (n : nat) : string :=
  if (n <? 10)%nat then "0" +:+ PyStr.of_nat n else PyStr.of_nat n.

(** [d.strftime("%Y%m%d_%H%M%S")] (years of four digits, as a clock gives). *)
Definition strftime_Ymd_HMS (d : datetime) : string :=
  PyStr.of_nat (year d) +:+ pad2 (month d) +:+ pad2 (day d) +:+ "_"
  +:+ pad2 (hour d) +:+ pad2 (minute d) +:+ pad2 (second d).

(** What the process does to the outside, in order. *)
Inductive event :=
| Stdout (text : string)           (* print(text) *)
| Prompt (text : string)           (* the prompt written by input(text) *)
| Exec (args : list string)        (* subprocess.run([..]) *)
| Sh (cmd : string).               (* subprocess.run(cmd, shell=True) *)

(** The exceptions that the script raises, catches or lets escape. *)
Inductive exn :=
| EOFError
| ValueError
| IndexError
| FileNotFoundError
| FileExistsError
| NotADirectoryError
| OSError_ENAMETOOLONG             (* OSError: [Errno 36] File name too long *)
| CalledProcessError (returncode : Z)
| SystemExit (code : Z).

Definition of_errno (e : Pathlib.errno) : exn :=
  match e with
  | Pathlib.ENOENT => FileNotFoundError
  | Pathlib.ENOTDIR => NotADirectoryError
  | Pathlib.EEXIST => FileExistsError
  | Pathlib.ENAMETOOLONG => OSError_ENAMETOOLONG
  | Pathlib.EmbeddedNull => ValueError
  end.

(** Everything a run depends on and everything it changes.
    - [argv]: [sys.argv];
    - [stdin]: the lines still to be read by [input];
    - [nmap_version]: [None] when no [nmap] is found, otherwise the exit
      status of [nmap -V];
    - [shell_rc k cmd]: the exit status of [cmd] when it is the [k]-th shell
      command of the run (counting from 0);
    - [clock k]: the [k]-th reading of [datetime.now()];
    - [int_max_str_digits]: the interpreter's limit for [int(str)], 0 for
      none;
    - [disk]: directory tree and working directory;
    - [ticks], [spawned]: clock readings and shell commands so far;
    - [out]: the events so far, oldest first. *)
Record World := MkWorld {
  argv : list string;
  stdin : list string;
  nmap_version : option Z;
  shell_rc : nat -> string -> Z;
  clock : nat -> datetime;
  int_max_str_digits : nat;
  disk : Pathlib.FS;
  ticks : nat;
  spawned : nat;
  out : list event }.

Definition emit (e : event) (w : World) : World :=
  MkWorld (argv w) (stdin w) (nmap_version w) (shell_rc w) (clock w)
          (int_max_str_digits w) (disk w) (ticks w) (spawned w) (out w ++ [e]).

Definition with_stdin (l : list string) (w : World) : World :=
  MkWorld (argv w) l (nmap_version w) (shell_rc w) (clock w)
          (int_max_str_digits w) (disk w) (ticks w) (spawned w) (out w).

Definition with_disk (d : Pathlib.FS) (w : World) : World :=
  MkWorld (argv w) (stdin w) (nmap_version w) (shell_rc w) (clock w)
          (int_max_str_digits w) d (ticks w) (spawned w) (out w).

Definition tick (w : World) : World :=
  MkWorld (argv w) (stdin w) (nmap_version w) (shell_rc w) (clock w)
          (int_max_str_digits w) (disk w) (S (ticks w)) (spawned w) (out w).

Definition spawn (w : World) : World :=
  MkWorld (argv w) (stdin w) (nmap_version w) (shell_rc w) (clock w)
          (int_max_str_digits w) (disk w) (ticks w) (S (spawned w)) (out w).

(** *** Computations: a value or an exception, and the world after *)

Inductive result (A : Type) :=
| Ok (a : A)
| Raise (e : exn).
Arguments Ok {A} a.
Arguments Raise {A} e.

Definition M (A : Type) : Type := World -> result A * World.

Definition ret {A} (a : A) : M A := fun w => (Ok a, w).

Definition raise {A} (e : exn) : M A := fun w => (Raise e, w).

Definition bind {A B} (m : M A) (k : A -> M B) : M B :=
  fun w => match m w with
           | (Ok a, w') => k a w'
           | (Raise e, w') => (Raise e, w')
           end.

(** [try: body except ..: handler]: [handler e] is [None] when no [except]
    clause matches [e]. *)
Definition try_except {A} (body : M A) (handler : exn -> option (M A)) : M A :=
  fun w => match body w with
           | (Ok a, w') => (Ok a, w')
           | (Raise e, w') =>
               match handler e with
               | Some h => h w'
               | None => (Raise e, w')
               end
           end.

(** [for x in xs: body(x)]. *)
Fixpoint for_each {A} (xs : list A) (body : A -> M unit) : M unit :=
  match xs with
  | [] => ret tt
  | x :: rest => bind (body x) (fun _ => for_each rest body)
  end.

(** *** The library calls of the script *)

Definition print (text : string) : M unit :=
  fun w => (Ok tt, emit (Stdout text) w).

(** [input(prompt)]: the next line without its newline; [EOFError] at the
    end of the input. *)
Definition input (prompt : string) : M string :=
  fun w => match stdin w with
           | line :: rest => (Ok line, with_stdin rest (emit (Prompt prompt) w))
           | [] => (Raise EOFError, emit (Prompt prompt) w)
           end.

Definition sys_exit {A} (code : Z) : M A := raise (SystemExit code).

Definition now : M datetime :=
  fun w => (Ok (clock w (ticks w)), tick w).

(** [subprocess.run(["nmap", "-V"], .., check=True)]. *)
Definition run_nmap_V : M unit :=
  fun w => let w' := emit (Exec ["nmap"; "-V"]) w in
           match nmap_version w with
           | None => (Raise FileNotFoundError, w')
           | Some rc => if rc =? 0 then (Ok tt, w')
                        else (Raise (CalledProcessError rc), w')
           end.

(** [subprocess.run(cmd, shell=True, check=True)]. *)
Definition run_shell (cmd : string) : M unit :=
  fun w => let rc := shell_rc w (spawned w) cmd in
           let w' := spawn (emit (Sh cmd) w) in
           if rc =? 0 then (Ok tt, w') else (Raise (CalledProcessError rc), w').

(** [p.mkdir(parents=True, exist_ok=True)]. *)
Definition path_mkdir (p : Pathlib.Path) : M unit :=
  fun w => match Pathlib.mkdir true true (disk w) p with
           | inr d => (Ok tt, with_disk d w)
           | inl e => (Raise (of_errno e), w)
           end.

Definition path_resolve (p : Pathlib.Path) : M Pathlib.Path :=
  fun w => (Ok (Pathlib.resolve (disk w) p), w).

(** [int(s)] under the interpreter's digit limit. *)
Definition py_int (s : string) : M Z :=
  fun w => match PyStr.int (int_max_str_digits w) s with
           | Some z => (Ok z, w)
           | None => (Raise ValueError, w)
           end.

(** [l[k]], negative indices counting from the end. *)
Definition getitem {A} (l : list A) (k : Z) : M A :=
  let n := Z.of_nat (length l) in
  match l !! Z.to_nat (if k <? 0 then n + k else k) with
  | Some x => if (- n <=? k) then ret x else raise IndexError
  | None => raise IndexError
  end.

(** [enumerate(l, start)]. *)
Fixpoint enumerate {A} (start : nat) (l : list A) : list (nat * A) :=
  match l with
  | [] => []
  | x :: rest => (start, x) :: enumerate (S start) rest
  end.

(** The exit status of the interpreter: 0 when the script runs to its end,
    the argument of [sys.exit], 1 after a traceback. *)
Definition exit_status {A} (r : result A) : Z :=
  match r with
  | Ok _ => 0
  | Raise (SystemExit c) => c
  | Raise _ => 1
  end.

End Proc.

Declare Scope script_scope.
Delimit Scope script_scope with script.
Notation "'do' x <- m ; k" := (Proc.bind m (fun x => k))
  (at level 10, x name, m at level 100, k at level 200) : script_scope.
Notation "'do' ' p <- m ; k" := (Proc.bind m (fun x => match x with p => k end))
  (at level 10, p pattern, m at level 100, k at level 200) : script_scope.
Notation "m ;;; k" := (Proc.bind m (fun _ => k))
  (at level 100, k at level 200, right associativity) : script_scope.


(* ===================================================================== *)
(** ** The script *)
(* ===================================================================== *)

Module Script.
Import Proc.
Local Open Scope script_scope.

(** The newline character of ["\n"]. *)
Definition nl : string := String "010"%char EmptyString.

Definition BANNER : string := "
 _   _   ____  _     _     _     ____  _   _ ___ _____
| | | | / ___|| |__ (_) __| |   / ___|| | | |_ _|_   _|
| | | | \___ \| '_ \| |/ _` |   \___ \| | | || |  | |
| |_| |  ___) | | | | | (_| |    ___) | |_| || |  | |
 \___/  |____/|_| |_|_|\__,_|   |____/ \___/|___| |_|
 
                TOOL BY TOUSIF
".

(** (label, nmap arguments) *)
Definition SCANS : list (string * string) :=
  [ ("tcp_quick_top1000", "-sS -T4 --top-ports 1000 -Pn");
    ("tcp_full_all_ports", "-sS -p- -T3 -Pn");
    ("service_version", "-sV -sC -T4 -Pn");
    ("udp_top100", "-sU --top-ports 100 -T3 -Pn");
    ("os_detection", "-O -sV -T4 -Pn");
    ("nse_vuln", "-sV --script vuln -T4 -Pn");
    ("default_scripts", "-sC -T4 -Pn") ].

Definition print_banner : M unit := print BANNER.

Definition nmap_not_found : string :=
  "[!] nmap not found. Install nmap (e.g. sudo apt install nmap) and re-run.".

Definition check_nmap : M unit :=
  try_except run_nmap_V
    (fun e => match e with
              | FileNotFoundError | CalledProcessError _ =>
                  Some (print nmap_not_found ;;; sys_exit 1)
              | _ => None
              end).

(** The pieces of [run_scan] that its messages are built from. *)
Definition outbase_of (outdir : Pathlib.Path) (label timestamp : string) : Pathlib.Path :=
  Pathlib.joinpath outdir (label +:+ "_" +:+ timestamp).

Definition cmd_of (target args : string) (outbase : Pathlib.Path) : string :=
  "nmap " +:+ args +:+ " -oA " +:+ Pathlib.to_str outbase +:+ " " +:+ target.

Definition saved_msg (outbase : Pathlib.Path) : string :=
  "[+] Saved outputs: " +:+ Pathlib.to_str outbase +:+ ".nmap, "
  +:+ Pathlib.to_str outbase +:+ ".xml, " +:+ Pathlib.to_str outbase +:+ ".gnmap".

Definition failed_msg (label : string) (returncode : Z) : string :=
  "[!] Scan " +:+ label +:+ " failed (exit " +:+ PyStr.of_Z returncode +:+ ").".

Definition run_scan (target label args : string) (outdir : Pathlib.Path) : M unit :=
  do t <- now;
  let timestamp := strftime_Ymd_HMS t in
  let outbase := outbase_of outdir label timestamp in
  let cmd := cmd_of target args outbase in
  print (nl +:+ "--- Running: " +:+ label +:+ " ---") ;;;
  print ("Cmd: " +:+ cmd) ;;;
  try_except
    (run_shell cmd ;;;
     print (saved_msg outbase))
    (fun e => match e with
              | CalledProcessError returncode => Some (print (failed_msg label returncode))
              | _ => None
              end).

Definition choose_mode : M string :=
  print (nl +:+ "Choose scan mode:") ;;;
  print "  1) Run ALL predefined scans (recommended)" ;;;
  print "  2) Choose scans to run (interactive)" ;;;
  do line <- input "Select 1 or 2 [1]: ";
  let choice := PyStr.strip line in
  ret (if PyStr.truthy choice then choice else "1").

Definition invalid_selection : string :=
  "[!] Invalid selection, defaulting to all scans.".

(** [[int(x.strip()) for x in pieces if x.strip()]]. *)
Fixpoint int_tokens (pieces : list string) : M (list Z) :=
  match pieces with
  | [] => ret []
  | x :: rest =>
      if PyStr.truthy (PyStr.strip x) then
        do i <- py_int (PyStr.strip x);
        do more <- int_tokens rest;
        ret (i :: more)
      else int_tokens rest
  end.

Section Registry.

Variable registry : list (string * string).

(** The loop of [interactive_choose_scans]:
<<
    for i in idxs:
        if 1 <= i <= len(SCANS):
            selected.append(SCANS[i-1])
>> *)
Fixpoint pick (idxs : list Z) (selected : list (string * string))
  : M (list (string * string)) :=
  match idxs with
  | [] => ret selected
  | i :: rest =>
      if (1 <=? i) && (i <=? Z.of_nat (length registry)) then
        do p <- getitem registry (i - 1);
        pick rest (selected ++ [p])
      else pick rest selected
  end.

(** Lines 77-87 of [interactive_choose_scans]: from the line typed (already
    stripped and lowered) to the list returned.  The last [return] is
    written inside the [try]: it cannot raise. *)
Definition choose_from (picks : string) : M (list (string * string)) :=
  if String.eqb picks "all" || String.eqb picks "" then ret registry
  else
    try_except
      (do idxs <- int_tokens (PyStr.split "," picks);
       do selected <- pick idxs [];
       ret (match selected with [] => registry | _ => selected end))
      (fun e => match e with
                | ValueError => Some (print invalid_selection ;;; ret registry)
                | _ => None
                end).

Definition picks_prompt : string :=
  "Enter numbers separated by comma (e.g. 1,3,5) or 'all': ".

Definition interactive_choose_scans : M (list (string * string)) :=
  print (nl +:+ "Available scans:") ;;;
  for_each (enumerate 1 registry)
    (fun '(i, (label, args)) =>
       print ("  " +:+ PyStr.of_nat i +:+ ") " +:+ label +:+ "  ->  nmap " +:+ args)) ;;;
  do line <- input picks_prompt;
  choose_from (PyStr.lower (PyStr.strip line)).

(** Lines 92-99 of [main]: the target from [sys.argv] or from the prompt. *)
Definition get_target : M string :=
  do args <- (fun w => (Ok (argv w), w));
  match args with
  | [_; a] => ret (PyStr.strip a)
  | _ =>
      do line <- input "Enter target IP or hostname: ";
      let target := PyStr.strip line in
      if negb (PyStr.truthy target) then
        print "[!] No target provided. Exiting." ;;;
        sys_exit 1
      else ret target
  end.

(** Lines 107-111 of [main]. *)
Definition get_scans_to_run : M (list (string * string)) :=
  do mode <- choose_mode;
  if String.eqb mode "2" then interactive_choose_scans else ret registry.

Definition main : M unit :=
  print_banner ;;;
  do target <- get_target;
  check_nmap ;;;
  let outdir := Pathlib.joinpath (Pathlib.parse "results") target in
  path_mkdir outdir ;;;
  do resolved <- path_resolve outdir;
  print ("[i] Results directory: " +:+ Pathlib.to_str resolved) ;;;
  do scans_to_run <- get_scans_to_run;
  print ("[i] Starting " +:+ PyStr.of_nat (length scans_to_run)
         +:+ " scans for target: " +:+ target) ;;;
  for_each scans_to_run
    (fun '(label, args) => run_scan target label args outdir) ;;;
  print (nl +:+ "All scans finished. Check the results directory.") ;;;
  print "Note: For better UDP/OS accuracy run as root (sudo)." ;;;
  print "Legal reminder: Only scan targets you have permission to test.".

End Registry.

(** [if __name__ == "__main__": main()], and the status the process ends with. *)
Definition script : M unit := main SCANS.

Definition process_exit (w : World) : Z := exit_status (fst (script w)).

End Script.


(* ===================================================================== *)
(** ** Vocabulary of the statements *)
(* ===================================================================== *)

Import Proc Script.
Local Open Scope script_scope.

(** The world after some more events. *)
Definition emits (evs : list event) (w : World) : World :=
  MkWorld (argv w) (stdin w) (nmap_version w) (shell_rc w) (clock w)
          (int_max_str_digits w) (disk w) (ticks w) (spawned w) (out w ++ evs).

(** The shell commands of a trace, in order. *)
Definition sh_cmds (tr : list event) : list string :=
  omap (fun e => match e with Sh c => Some c | _ => None end) tr.

(** What [interactive_choose_scans] writes before it reads the picks. *)
Definition menu_line (x : nat * (string * string)) : string :=
  let '(i, (label, args)) := x in
  "  " +:+ PyStr.of_nat i +:+ ") " +:+ label +:+ "  ->  nmap " +:+ args.

Definition menu (registry : list (string * string)) : list event :=
  Stdout (nl +:+ "Available scans:")
  :: map (fun x => Stdout (menu_line x)) (enumerate 1 registry)
  ++ [Prompt picks_prompt].

(** The tokens of a line of picks: the comma-separated pieces, stripped,
    without the blank ones. *)
Definition tokens (picks : string) : list string :=
  map PyStr.strip
      (List.filter (fun x => PyStr.truthy (PyStr.strip x)) (PyStr.split "," picks)).

(** All tokens read as integers, or [None] when one of them is no integer. *)
Fixpoint ints (max_digits : nat) (toks : list string) : option (list Z) :=
  match toks with
  | [] => Some []
  | t :: rest =>
      match PyStr.int max_digits t, ints max_digits rest with
      | Some i, Some more => Some (i :: more)
      | _, _ => None
      end
  end.

Definition in_range (registry : list (string * string)) (i : Z) : bool :=
  (1 <=? i) && (i <=? Z.of_nat (length registry)).

(** The profiles named by a list of 1-based indices, one per index that is
    in range, in the order of the indices. *)
Definition chosen (registry : list (string * string)) (idxs : list Z)
  : list (string * string) :=
  omap (fun i => if in_range registry i then registry !! Z.to_nat (i - 1) else None) idxs.

(** A token that names no profile: not an integer, or out of range. *)
Definition invalid_token (registry : list (string * string)) (max_digits : nat)
           (t : string) : Prop :=
  match PyStr.int max_digits t with
  | Some i => in_range registry i = false
  | None => True
  end.

Definition non_numeric (max_digits : nat) (t : string) : bool :=
  match PyStr.int max_digits t with Some _ => false | None => true end.

(** The picks that mean "everything". *)
Definition means_all (picks : string) : bool :=
  String.eqb picks "all" || String.eqb picks "".


(** The claim that a line of picks makes [interactive_choose_scans] return
    the whole registry and print the warning. *)
Definition falls_back_with_warning (registry : list (string * string)) (w : World) : Prop :=
  let r := interactive_choose_scans registry w in
  fst r = Ok registry /\ In (Stdout invalid_selection) (out (snd r)).

(** What [choose_mode] writes. *)
Definition mode_menu : list event :=
  [ Stdout (nl +:+ "Choose scan mode:");
    Stdout "  1) Run ALL predefined scans (recommended)";
    Stdout "  2) Choose scans to run (interactive)";
    Prompt "Select 1 or 2 [1]: " ].

(** The world after [n] more clock readings and shell commands and some
    more events. *)
Definition advance (n : nat) (evs : list event) (w : World) : World :=
  MkWorld (argv w) (stdin w) (nmap_version w) (shell_rc w) (clock w)
          (int_max_str_digits w) (disk w) (ticks w + n) (spawned w + n)
          (out w ++ evs).

(** The scan that is the [k]-th one to start from the world [w]: its output
    base, its command, the exit status of that command, and its events. *)
Definition scan_outbase (w : World) (outdir : Pathlib.Path) (k : nat)
           (profile : string * string) : Pathlib.Path :=
  outbase_of outdir (fst profile) (strftime_Ymd_HMS (clock w (ticks w + k))).

Definition scan_cmd (w : World) (target : string) (outdir : Pathlib.Path) (k : nat)
           (profile : string * string) : string :=
  cmd_of target (snd profile) (scan_outbase w outdir k profile).

Definition scan_rc (w : World) (target : string) (outdir : Pathlib.Path) (k : nat)
           (profile : string * string) : Z :=
  shell_rc w (spawned w + k) (scan_cmd w target outdir k profile).

Definition scan_report (w : World) (target : string) (outdir : Pathlib.Path) (k : nat)
           (profile : string * string) : string :=
  if scan_rc w target outdir k profile =? 0
  then saved_msg (scan_outbase w outdir k profile)
  else failed_msg (fst profile) (scan_rc w target outdir k profile).

Definition scan_events (w : World) (target : string) (outdir : Pathlib.Path) (k : nat)
           (profile : string * string) : list event :=
  [ Stdout (nl +:+ "--- Running: " +:+ fst profile +:+ " ---");
    Stdout ("Cmd: " +:+ scan_cmd w target outdir k profile);
    Sh (scan_cmd w target outdir k profile);
    Stdout (scan_report w target outdir k profile) ].

(** The events of the scans of a list of profiles, the first of them being
    the [k]-th scan from [w]. *)
Fixpoint batch_events (w : World) (target : string) (outdir : Pathlib.Path) (k : nat)
         (scans : list (string * string)) : list event :=
  match scans with
  | [] => []
  | p :: rest =>
      (scan_events w target outdir k p ++ batch_events w target outdir (S k) rest)%list
  end.

(** The target given on the command line, if [sys.argv] has two entries. *)
Definition argv_target (args : list string) : option string :=
  match args with
  | [_; a] => Some a
  | _ => None
  end.

Definition target_prompt : string := "Enter target IP or hostname: ".

Definition no_target : string := "[!] No target provided. Exiting.".

(** The directory that [main] creates for a target. *)
Definition outdir_of (target : string) : Pathlib.Path :=
  Pathlib.joinpath (Pathlib.parse "results") target.

(** The lines that [main] prints around the loop. *)
Definition results_line (d : Pathlib.FS) (target : string) : string :=
  "[i] Results directory: " +:+ Pathlib.to_str (Pathlib.resolve d (outdir_of target)).

Definition starting_line (target : string) (scans : list (string * string)) : string :=
  "[i] Starting " +:+ PyStr.of_nat (length scans) +:+ " scans for target: " +:+ target.

Definition closing : list event :=
  [ Stdout (nl +:+ "All scans finished. Check the results directory.");
    Stdout "Note: For better UDP/OS accuracy run as root (sudo).";
    Stdout "Legal reminder: Only scan targets you have permission to test." ].

(** A run ends in a traceback when an exception other than [SystemExit]
    leaves [main]. *)
Definition traceback {A} (r : result A) : bool :=
  match r with
  | Ok _ => false
  | Raise (SystemExit _) => false
  | Raise _ => true
  end.

(** [w'] differs from [w] by input read and by events that are not shell
    commands: nothing was run, nothing was created, no time was read. *)
Definition talk_only (w w' : World) : Prop :=
  argv w' = argv w /\ nmap_version w' = nmap_version w
  /\ shell_rc w' = shell_rc w /\ clock w' = clock w
  /\ int_max_str_digits w' = int_max_str_digits w /\ disk w' = disk w
  /\ ticks w' = ticks w /\ spawned w' = spawned w
  /\ sh_cmds (out w') = sh_cmds (out w).

(** The target prompt was answered with a blank line. *)
Definition prompt_empty (w : World) : Prop :=
  argv_target (argv w) = None
  /\ exists line rest, stdin w = line :: rest /\ PyStr.strip line = "".

(** What target resolution yields, from either source: the stripped
    command-line argument, or the stripped answer to the prompt. *)
Definition resolved_target (w : World) : option string :=
  match argv_target (argv w), stdin w with
  | Some a, _ => Some (PyStr.strip a)
  | None, line :: _ => Some (PyStr.strip line)
  | None, [] => None
  end.

(** The claim that the exit status is non-zero exactly when the preflight
    check fails or target resolution yields the empty string. *)
Definition exit_status_as_claimed (w : World) : Prop :=
  process_exit w <> 0
  <-> (nmap_version w <> Some 0 \/ resolved_target w = Some "").


(** The claim that a selection is run in registry order, no profile twice:
    the list of profiles run is the registry with some entries left out. *)
Definition in_registry_order_once (registry scans : list (string * string)) : Prop :=
  scans `sublist_of` registry /\ NoDup scans.

(** A test that is passed by every list obtained from [l2] by leaving
    entries out. *)
Fixpoint subseqb (l1 l2 : list (string * string)) : bool :=
  match l1, l2 with
  | [], _ => true
  | _ :: _, [] => false
  | x :: l1', y :: l2' => (bool_decide (x = y) && subseqb l1' l2') || subseqb l1 l2'
  end.

(** A string without a slash. *)
Fixpoint no_slash (s : string) : bool :=
  match s with
  | EmptyString => true
  | String c r => negb (Ascii.eqb c "/") && no_slash r
  end.

(** The date and time down to the second. *)
Definition to_the_second (d : datetime) : list nat :=
  [year d; month d; day d; hour d; minute d; second d].

(** A date and time whose fields below the year have at most two digits. *)
Definition two_digit_fields (d : datetime) : Prop :=
  (month d < 100 /\ day d < 100 /\ hour d < 100 /\ minute d < 100 /\ second d < 100)%nat.


(** [w'] has the events of [w] and then some that are not shell commands. *)
Definition says_more (w w' : World) : Prop :=
  exists evs, out w' = (out w ++ evs)%list /\ sh_cmds evs = [].

(** A date and time as a clock gives it: a year of four digits, the other
    fields of at most two. *)
Definition clock_datetime (d : datetime) : Prop :=
  1000 <= Z.of_nat (year d) <= 9999 /\ two_digit_fields d.

(** A string of decimal digits. *)
Fixpoint all_digits (s : string) : bool :=
  match s with
  | EmptyString => true
  | String c r => PyStr.is_digit c && all_digits r
  end.

(** The input lines that are left once the target is known: all of them
    when the target came from the command line, all but the first (the
    answer to the target prompt) otherwise. *)
Definition lines_after_target (w : World) : list string :=
  match argv_target (argv w) with
  | Some _ => stdin w
  | None => tail (stdin w)
  end.

(** What target resolution writes. *)
Definition target_events (w : World) : list event :=
  match argv_target (argv w) with
  | Some _ => []
  | None => [Prompt target_prompt]
  end.

(** The selection that a typed line of picks stands for: the registry for
    ["all"], for an empty line, for a line with a token that is no integer
    and for a line without an index in range; else the profiles at the
    indices in range, in the order in which they were typed. *)
Definition picked (registry : list (string * string)) (max_digits : nat)
           (line : string) : list (string * string) :=
  let picks := PyStr.lower (PyStr.strip line) in
  if means_all picks then registry
  else match ints max_digits (tokens picks) with
       | Some idxs => match chosen registry idxs with [] => registry | sel => sel end
       | None => registry
       end.

(** The typed line of picks draws the warning. *)
Definition warned (max_digits : nat) (line : string) : bool :=
  let picks := PyStr.lower (PyStr.strip line) in
  if means_all picks then false
  else match ints max_digits (tokens picks) with Some _ => false | None => true end.

(** The selection that the input lines stand for, the first of them being
    the answer to the mode prompt: none when the input ends before the
    answer that is asked for. *)
Definition selected (registry : list (string * string)) (max_digits : nat)
           (lines : list string) : option (list (string * string)) :=
  match lines with
  | [] => None
  | mode :: rest =>
      if String.eqb (PyStr.strip mode) "2" then
        match rest with
        | [] => None
        | line :: _ => Some (picked registry max_digits line)
        end
      else Some registry
  end.

(** What the selection writes, and the input lines it leaves. *)
Definition selection_events (registry : list (string * string)) (max_digits : nat)
           (lines : list string) : list event :=
  match lines with
  | [] => mode_menu
  | mode :: rest =>
      if String.eqb (PyStr.strip mode) "2" then
        (mode_menu ++ menu registry
           ++ match rest with
              | line :: _ => if warned max_digits line then [Stdout invalid_selection] else []
              | [] => []
              end)%list
      else mode_menu
  end.

Definition lines_after_selection (lines : list string) : list string :=
  match lines with
  | [] => []
  | mode :: rest => if String.eqb (PyStr.strip mode) "2" then tail rest else rest
  end.

(** Everything that a run writes before it announces the scans: the banner,
    the target prompt if there is one, the version query, the line about the
    results directory [d], and the selection dialogue. *)
Definition preamble (registry : list (string * string)) (w : World) (target : string)
           (d : Pathlib.FS) : list event :=
  (Stdout BANNER
   :: target_events w
   ++ [Exec ["nmap"; "-V"]; Stdout (results_line d target)]
   ++ selection_events registry (int_max_str_digits w) (lines_after_target w))%list.

(** The world at the end of a run that started in [w], created the tree [d]
    for the target and ran the profiles [scans]. *)
Definition after_run (registry : list (string * string)) (w : World) (target : string)
           (d : Pathlib.FS) (scans : list (string * string)) : World :=
  MkWorld (argv w) (lines_after_selection (lines_after_target w)) (nmap_version w)
          (shell_rc w) (clock w) (int_max_str_digits w) d
          (ticks w + length scans) (spawned w + length scans)
          (out w ++ preamble registry w target d
                 ++ Stdout (starting_line target scans)
                 :: batch_events w target (outdir_of target) 0 scans ++ closing).

(** A world to run examples in: a fresh process in [/home/job], no other
    directory yet, a clock that advances one second per reading. *)
Definition a_clock (k : nat) : datetime := MkDatetime 2026 11 4 9 5 (7 + k) 0.

Definition world_of (args input_lines : list string) (version : option Z)
           (rc : nat -> string -> Z) : World :=
  MkWorld args input_lines version rc a_clock 4300
          (Pathlib.MkFS {[ ["home"] := Pathlib.Dir; ["job"; "home"] := Pathlib.Dir ]}
                        ["job"; "home"]) 0 0 [].


(* ===================================================================== *)
(** ** Worlds and computations *)
(* ===================================================================== *)

Arguments Pathlib.mkdir : simpl never.

Lemma emits_nil w : emits [] w = w.
Proof. destruct w; unfold emits; simpl. by rewrite app_nil_r. Qed.

Lemma emits_cons e evs w : emits (e :: evs) w = emits evs (emit e w).
Proof. destruct w; unfold emits, emit; simpl. by rewrite <- app_assoc. Qed.

Lemma emits_app evs1 evs2 w : emits (evs1 ++ evs2) w = emits evs2 (emits evs1 w).
Proof. destruct w; unfold emits; simpl. by rewrite app_assoc. Qed.

Lemma emit_emits e w : emit e w = emits [e] w.
Proof. reflexivity. Qed.

Lemma for_each_print {A} (f : A -> string) (body : A -> M unit) (xs : list A) w :
  (forall x w', body x w' = (Ok tt, emit (Stdout (f x)) w')) ->
  for_each xs body w = (Ok tt, emits (map (fun x => Stdout (f x)) xs) w).
Proof.
  intros Hbody. revert w. induction xs as [|x xs IH]; intros w; simpl.
  - by rewrite emits_nil.
  - unfold bind. rewrite Hbody, IH. by rewrite emits_cons.
Qed.

(* ===================================================================== *)
(** ** Choosing profiles *)
(* ===================================================================== *)

Section Choosing.

Variable registry : list (string * string).

Lemma in_range_lookup i :
  in_range registry i = true ->
  exists p, registry !! Z.to_nat (i - 1) = Some p.
Proof.
  unfold in_range. intros H. apply andb_prop in H as [H1 H2].
  apply Z.leb_le in H1, H2.
  destruct (lookup_lt_is_Some_2 registry (Z.to_nat (i - 1))) as [p Hp]; [lia|eauto].
Qed.

Lemma getitem_in_range i p w :
  in_range registry i = true ->
  registry !! Z.to_nat (i - 1) = Some p ->
  getitem registry (i - 1) w = (Ok p, w).
Proof.
  unfold in_range, getitem. intros H Hp. apply andb_prop in H as [H1 H2].
  apply Z.leb_le in H1, H2.
  destruct (Z.ltb_spec (i - 1) 0); [lia|]. rewrite Hp.
  destruct (Z.leb_spec (- Z.of_nat (length registry)) (i - 1)); [done|lia].
Qed.

(** The loop never raises: it appends [chosen] to what was selected. *)
Lemma pick_chosen idxs selected w :
  pick registry idxs selected w = (Ok (selected ++ chosen registry idxs)%list, w).
Proof.
  revert selected. induction idxs as [|i idxs IH]; intros selected; simpl.
  - unfold chosen; simpl. by rewrite app_nil_r.
  - fold (in_range registry i). unfold chosen; simpl. fold (chosen registry idxs).
    destruct (in_range registry i) eqn:Hr.
    + destruct (in_range_lookup i Hr) as [p Hp].
      unfold bind. rewrite (getitem_in_range i p w Hr Hp), IH, Hp. simpl.
      by rewrite <- app_assoc.
    + apply IH.
Qed.

Lemma int_tokens_ints pieces w :
  int_tokens pieces w =
  (match ints (int_max_str_digits w)
               (map PyStr.strip
                    (List.filter (fun x => PyStr.truthy (PyStr.strip x)) pieces)) with
   | Some idxs => Ok idxs
   | None => Raise ValueError
   end, w).
Proof.
  induction pieces as [|x pieces IH]; simpl; [done|].
  destruct (PyStr.truthy (PyStr.strip x)); simpl; [|done].
  unfold bind, py_int at 1.
  destruct (PyStr.int (int_max_str_digits w) (PyStr.strip x)); [|done].
  rewrite IH. by destruct (ints _ _).
Qed.

(** What [choose_from] returns and writes, for every line of picks. *)
Lemma choose_from_eq picks w :
  choose_from registry picks w =
  if means_all picks then (Ok registry, w)
  else match ints (int_max_str_digits w) (tokens picks) with
       | Some idxs =>
           (Ok (match chosen registry idxs with [] => registry | sel => sel end), w)
       | None => (Ok registry, emit (Stdout invalid_selection) w)
       end.
Proof.
  unfold choose_from, means_all.
  destruct (String.eqb picks "all" || String.eqb picks ""); [done|].
  unfold try_except, bind. rewrite int_tokens_ints. fold (tokens picks).
  destruct (ints _ _) as [idxs|]; [|done].
  rewrite pick_chosen. simpl. by destruct (chosen registry idxs).
Qed.

(** What [interactive_choose_scans] does with the next line of input. *)
Lemma interactive_choose_scans_eq line rest w :
  stdin w = line :: rest ->
  interactive_choose_scans registry w =
  choose_from registry (PyStr.lower (PyStr.strip line))
              (with_stdin rest (emits (menu registry) w)).
Proof.
  intros Hin. unfold interactive_choose_scans, bind at 1 2.
  unfold print at 1.
  rewrite (for_each_print menu_line); [|by intros [i [label args]] w'].
  unfold bind, input. simpl. rewrite Hin.
  f_equal. unfold menu. rewrite emits_cons, emits_app. reflexivity.
Qed.

End Choosing.

(** *** The claims about [interactive_choose_scans] *)

Lemma means_all_choose registry line rest w :
  stdin w = line :: rest ->
  means_all (PyStr.lower (PyStr.strip line)) = true ->
  interactive_choose_scans registry w
  = (Ok registry, with_stdin rest (emits (menu registry) w)).
Proof.
  intros Hin Hall. rewrite (interactive_choose_scans_eq _ _ _ _ Hin).
  by rewrite choose_from_eq, Hall.
Qed.

(** C5: on the input lines [""] and ["all"], [interactive_choose_scans]
    returns the whole registry, in registry order (and writes nothing but
    its menu and prompt). *)
Theorem choose_empty_or_all_is_registry (registry : list (string * string))
        (rest : list string) (w : World) :
  interactive_choose_scans registry (with_stdin ("" :: rest) w)
  = (Ok registry, with_stdin rest (emits (menu registry) w))
  /\ interactive_choose_scans registry (with_stdin ("all" :: rest) w)
    = (Ok registry, with_stdin rest (emits (menu registry) w)).
Proof.
  split.
  - by rewrite (means_all_choose registry "" rest).
  - by rewrite (means_all_choose registry "all" rest).
Qed.

(** C4: on the input line ["1,3"], with at least three profiles in the
    registry, [interactive_choose_scans] returns exactly the first and the
    third profile of the registry, in that order. *)
Theorem choose_1_3 (registry : list (string * string)) (rest : list string) (w : World) :
  (3 <= length registry)%nat ->
  exists p1 p3,
    registry !! 0%nat = Some p1 /\ registry !! 2%nat = Some p3
    /\ interactive_choose_scans registry (with_stdin ("1,3" :: rest) w)
       = (Ok [p1; p3], with_stdin rest (emits (menu registry) w)).
Proof.
  intros Hlen.
  destruct registry as [|p1 [|p2 [|p3 more]]]; simpl in Hlen; try lia.
  exists p1, p3. split; [done|split; [done|]].
  rewrite (interactive_choose_scans_eq _ "1,3" rest); [|done].
  rewrite choose_from_eq.
  change (PyStr.lower (PyStr.strip "1,3")) with "1,3".
  change (means_all "1,3") with false. cbv iota.
  change (tokens "1,3") with ["1"; "3"].
  assert (Hi : forall m, ints m ["1"; "3"] = Some [1; 3]) by (intros m; reflexivity).
  rewrite Hi. unfold chosen. simpl omap.
  assert (H1 : in_range (p1 :: p2 :: p3 :: more) 1 = true).
  { unfold in_range. apply andb_true_intro. split; apply Z.leb_le; simpl length; lia. }
  assert (H3 : in_range (p1 :: p2 :: p3 :: more) 3 = true).
  { unfold in_range. apply andb_true_intro. split; apply Z.leb_le; simpl length; lia. }
  rewrite H1, H3. reflexivity.
Qed.

Lemma choose_1_3_witness :
  exists p1 p3,
    SCANS !! 0%nat = Some p1 /\ SCANS !! 2%nat = Some p3
    /\ interactive_choose_scans SCANS
         (with_stdin ["1,3"] (world_of ["nmap_auto_banner.py"; "10.0.0.5"] [] (Some 0) (fun _ _ => 0)))
       = (Ok [p1; p3],
          with_stdin [] (emits (menu SCANS)
            (world_of ["nmap_auto_banner.py"; "10.0.0.5"] [] (Some 0) (fun _ _ => 0)))).
Proof.
  apply (choose_1_3 SCANS []). simpl. lia.
Defined.

Lemma ints_non_numeric m toks :
  ints m toks = None <-> existsb (non_numeric m) toks = true.
Proof.
  induction toks as [|t toks IH]; simpl; [done|].
  unfold non_numeric at 1.
  destruct (PyStr.int m t); simpl; [|done].
  rewrite <- IH. by destruct (ints m toks).
Qed.

Lemma chosen_invalid registry m toks idxs :
  ints m toks = Some idxs ->
  Forall (invalid_token registry m) toks ->
  chosen registry idxs = [].
Proof.
  revert idxs. induction toks as [|t toks IH]; intros idxs; simpl.
  - by intros [= <-].
  - intros Hi Hall. apply Forall_cons in Hall as [Ht Hall].
    unfold invalid_token in Ht.
    destruct (PyStr.int m t) as [i|]; [|done].
    destruct (ints m toks) as [more|]; [|done].
    injection Hi as <-. unfold chosen. simpl. rewrite Ht.
    by apply IH.
Qed.

(** C3, as the code has it: a line of picks whose tokens are all out of
    range or not integers makes [interactive_choose_scans] return the whole
    registry; the warning is printed when (and only when) the line is not
    ["all"] and one of its tokens is not an integer.  Out-of-range integers
    alone fall back without any message. *)
Theorem invalid_picks_fall_back (registry : list (string * string))
        (line : string) (rest : list string) (w : World) :
  stdin w = line :: rest ->
  Forall (invalid_token registry (int_max_str_digits w))
         (tokens (PyStr.lower (PyStr.strip line))) ->
  interactive_choose_scans registry w
  = (Ok registry,
     let w' := with_stdin rest (emits (menu registry) w) in
     if negb (means_all (PyStr.lower (PyStr.strip line)))
        && existsb (non_numeric (int_max_str_digits w))
                   (tokens (PyStr.lower (PyStr.strip line)))
     then emit (Stdout invalid_selection) w' else w').
Proof.
  intros Hin Hall. rewrite (interactive_choose_scans_eq _ _ _ _ Hin), choose_from_eq.
  destruct (means_all _); [done|]. cbn [negb andb].
  change (int_max_str_digits (with_stdin rest (emits (menu registry) w)))
    with (int_max_str_digits w).
  destruct (ints _ _) as [idxs|] eqn:Hi.
  - rewrite (chosen_invalid _ _ _ _ Hi Hall).
    destruct (existsb _ _) eqn:He; [|done].
    apply ints_non_numeric in He. congruence.
  - apply ints_non_numeric in Hi. by rewrite Hi.
Qed.

Lemma invalid_picks_fall_back_witness :
  interactive_choose_scans SCANS
    (world_of ["nmap_auto_banner.py"; "10.0.0.5"] ["99,abc"] (Some 0) (fun _ _ => 0))
  = (Ok SCANS,
     emit (Stdout invalid_selection)
       (with_stdin [] (emits (menu SCANS)
          (world_of ["nmap_auto_banner.py"; "10.0.0.5"] ["99,abc"] (Some 0) (fun _ _ => 0))))).
Proof.
  apply (invalid_picks_fall_back SCANS "99,abc" []
           (world_of ["nmap_auto_banner.py"; "10.0.0.5"] ["99,abc"] (Some 0) (fun _ _ => 0))).
  - reflexivity.
  - repeat constructor.
Defined.

(** C3 as stated fails on the line ["99"]: its only token is an out-of-range
    integer, the whole registry is returned, and no warning is printed. *)
Lemma out_of_range_pick_prints_no_warning :
  Forall (invalid_token SCANS 4300) (tokens (PyStr.lower (PyStr.strip "99")))
  /\ fst (interactive_choose_scans SCANS
            (world_of ["nmap_auto_banner.py"; "10.0.0.5"] ["99"] (Some 0) (fun _ _ => 0)))
     = Ok SCANS
  /\ ~ falls_back_with_warning SCANS
        (world_of ["nmap_auto_banner.py"; "10.0.0.5"] ["99"] (Some 0) (fun _ _ => 0)).
Proof.
  split; [repeat constructor|]. split; [reflexivity|].
  intros [_ Hw]. vm_compute in Hw.
  repeat (destruct Hw as [Hw|Hw]; [discriminate Hw|]). exact Hw.
Qed.

(** *** Mode resolution *)

Lemma choose_mode_eq line rest w :
  stdin w = line :: rest ->
  choose_mode w
  = (Ok (if PyStr.truthy (PyStr.strip line) then PyStr.strip line else "1"),
     with_stdin rest (emits mode_menu w)).
Proof.
  intros Hin. unfold choose_mode, bind, print, input. simpl. rewrite Hin.
  unfold ret. f_equal. unfold mode_menu.
  by rewrite !emits_cons, emits_nil.
Qed.

Lemma get_scans_to_run_mode registry line rest w :
  stdin w = line :: rest ->
  get_scans_to_run registry w
  = if String.eqb (PyStr.strip line) "2"
    then interactive_choose_scans registry (with_stdin rest (emits mode_menu w))
    else (Ok registry, with_stdin rest (emits mode_menu w)).
Proof.
  intros Hin. unfold get_scans_to_run, bind. rewrite (choose_mode_eq _ _ _ Hin).
  destruct (String.eqb_spec (PyStr.strip line) "2") as [->|Hne]; [done|].
  destruct (PyStr.truthy (PyStr.strip line)); [|done].
  by destruct (String.eqb_spec (PyStr.strip line) "2").
Qed.

Lemma get_scans_to_run_by_mode registry line rest w :
  stdin w = line :: rest ->
  (PyStr.strip line <> "2" ->
   get_scans_to_run registry w = (Ok registry, with_stdin rest (emits mode_menu w)))
  /\ (PyStr.strip line = "2" ->
     get_scans_to_run registry w
     = interactive_choose_scans registry (with_stdin rest (emits mode_menu w))).
Proof.
  intros Hin. rewrite (get_scans_to_run_mode registry line rest w Hin).
  by destruct (String.eqb_spec (PyStr.strip line) "2").
Qed.

(** C10: every stripped answer to the mode prompt other than ["2"] (an
    empty one, ["1"], ["3"], ["x"], ...) runs all profiles, without any
    further question; exactly the answer ["2"] leads to the interactive
    selection. *)
Theorem mode_resolution (registry : list (string * string))
        (line : string) (rest : list string) (w : World) :
  stdin w = line :: rest ->
  (PyStr.strip line <> "2" ->
   get_scans_to_run registry w = (Ok registry, with_stdin rest (emits mode_menu w)))
  /\ (PyStr.strip line = "2" ->
     get_scans_to_run registry w
     = interactive_choose_scans registry (with_stdin rest (emits mode_menu w))).
Proof.
  intros Hin. unfold get_scans_to_run, bind. rewrite (choose_mode_eq _ _ _ Hin).
  split.
  - intros Hne. destruct (PyStr.truthy (PyStr.strip line)); [|done].
    destruct (String.eqb_spec (PyStr.strip line) "2"); [done|done].
  - intros ->. done.
Qed.

Lemma mode_resolution_witness :
  get_scans_to_run SCANS
    (world_of ["nmap_auto_banner.py"; "10.0.0.5"] [" x "; "3,1"] (Some 0) (fun _ _ => 0))
  = (Ok SCANS,
     with_stdin ["3,1"] (emits mode_menu
       (world_of ["nmap_auto_banner.py"; "10.0.0.5"] [" x "; "3,1"] (Some 0) (fun _ _ => 0))))
  /\ get_scans_to_run SCANS
      (world_of ["nmap_auto_banner.py"; "10.0.0.5"] ["2 "; "3,1"] (Some 0) (fun _ _ => 0))
    = interactive_choose_scans SCANS
        (with_stdin ["3,1"] (emits mode_menu
           (world_of ["nmap_auto_banner.py"; "10.0.0.5"] ["2 "; "3,1"] (Some 0) (fun _ _ => 0)))).
Proof.
  split.
  - apply (mode_resolution SCANS " x " ["3,1"]); [reflexivity|discriminate].
  - apply (mode_resolution SCANS "2 " ["3,1"]); reflexivity.
Defined.


(* ===================================================================== *)
(** ** Running the scans *)
(* ===================================================================== *)

Lemma advance_0 w : advance 0 [] w = w.
Proof. destruct w; unfold advance; simpl. by rewrite !Nat.add_0_r, app_nil_r. Qed.

Lemma advance_advance n evs n' evs' w :
  advance n' evs' (advance n evs w) = advance (n + n') (evs ++ evs') w.
Proof. destruct w; unfold advance; simpl. by rewrite !Nat.add_assoc, app_assoc. Qed.

Lemma scan_events_advance n evs w target outdir k p :
  scan_events (advance n evs w) target outdir k p = scan_events w target outdir (n + k) p.
Proof.
  unfold scan_events, scan_report, scan_rc, scan_cmd, scan_outbase. simpl.
  by rewrite !Nat.add_assoc.
Qed.

(** One scan: whatever the exit status of the command, [run_scan] returns
    normally after its four events. *)
Lemma run_scan_eq target label args outdir w :
  run_scan target label args outdir w
  = (Ok tt, advance 1 (scan_events w target outdir 0 (label, args)) w).
Proof.
  unfold run_scan, bind, now, print, try_except, run_shell.
  unfold scan_events, scan_report, scan_rc, scan_cmd, scan_outbase.
  destruct w as [a i v rc c m d t sp o]. simpl.
  rewrite !Nat.add_0_r.
  destruct (rc sp _ =? 0) eqn:Hrc; simpl;
    unfold advance, emit, spawn, tick; simpl;
    rewrite !Nat.add_1_r, <- !app_assoc; reflexivity.
Qed.

(** The loop of [main]: it returns normally after the events of all the
    scans. *)
Lemma batch_eq_from target outdir scans w n evs :
  for_each scans (fun '(label, args) => run_scan target label args outdir) (advance n evs w)
  = (Ok tt, advance (n + length scans) (evs ++ batch_events w target outdir n scans) w).
Proof.
  revert n evs. induction scans as [|[label args] scans IH]; intros n evs; simpl.
  - by rewrite Nat.add_0_r, app_nil_r.
  - unfold bind.
    rewrite run_scan_eq, advance_advance, scan_events_advance, IH.
    rewrite Nat.add_0_r, <- app_assoc, Nat.add_1_r. do 2 f_equal. lia.
Qed.

Lemma batch_eq target outdir scans w :
  for_each scans (fun '(label, args) => run_scan target label args outdir) w
  = (Ok tt, advance (length scans) (batch_events w target outdir 0 scans) w).
Proof.
  rewrite <- (advance_0 w) at 1. by rewrite batch_eq_from.
Qed.

Lemma sh_cmds_batch w target outdir k scans :
  sh_cmds (batch_events w target outdir k scans)
  = imap (fun j p => scan_cmd w target outdir (k + j) p) scans.
Proof.
  revert k. induction scans as [|p scans IH]; intros k; simpl; [done|].
  rewrite Nat.add_0_r. f_equal. rewrite IH.
  apply imap_ext. intros j q _. simpl. f_equal. lia.
Qed.


(* ===================================================================== *)
(** ** The stages of [main] *)
(* ===================================================================== *)

Lemma get_target_argv w a :
  argv_target (argv w) = Some a ->
  get_target w = (Ok (PyStr.strip a), w).
Proof.
  unfold get_target, bind, argv_target.
  destruct (argv w) as [|x [|y [|z l]]]; try discriminate.
  by intros [= ->].
Qed.

Lemma get_target_prompt w :
  argv_target (argv w) = None ->
  get_target w =
  match stdin w with
  | [] => (Raise EOFError, emit (Prompt target_prompt) w)
  | line :: rest =>
      if PyStr.truthy (PyStr.strip line)
      then (Ok (PyStr.strip line), with_stdin rest (emit (Prompt target_prompt) w))
      else (Raise (SystemExit 1),
            emit (Stdout no_target) (with_stdin rest (emit (Prompt target_prompt) w)))
  end.
Proof.
  unfold get_target, argv_target. unfold bind at 1. intros Ha.
  assert (Hp : forall (k : string -> M string) w,
             bind (input target_prompt) k w =
             match stdin w with
             | [] => (Raise EOFError, emit (Prompt target_prompt) w)
             | line :: rest => k line (with_stdin rest (emit (Prompt target_prompt) w))
             end).
  { intros k w'. unfold bind, input. by destruct (stdin w'). }
  destruct (argv w) as [|x [|y [|z l]]]; try discriminate;
    fold target_prompt; rewrite Hp; destruct (stdin w) as [|line rest]; try done;
    by destruct (PyStr.truthy (PyStr.strip line)).
Qed.

Lemma check_nmap_ok w :
  nmap_version w = Some 0 ->
  check_nmap w = (Ok tt, emit (Exec ["nmap"; "-V"]) w).
Proof. intros H. unfold check_nmap, try_except, run_nmap_V. by rewrite H. Qed.

Lemma check_nmap_fails w :
  nmap_version w <> Some 0 ->
  check_nmap w = (Raise (SystemExit 1),
                  emit (Stdout nmap_not_found) (emit (Exec ["nmap"; "-V"]) w)).
Proof.
  intros H. unfold check_nmap, try_except, run_nmap_V.
  destruct (nmap_version w) as [rc|]; [|done].
  destruct (Z.eqb_spec rc 0) as [->|]; [done|done].
Qed.

(** [main], stage by stage. *)
Lemma main_unfold registry w :
  main registry w =
  match get_target (emit (Stdout BANNER) w) with
  | (Raise e, w1) => (Raise e, w1)
  | (Ok target, w1) =>
      match check_nmap w1 with
      | (Raise e, w2) => (Raise e, w2)
      | (Ok _, w2) =>
          match Pathlib.mkdir true true (disk w2) (outdir_of target) with
          | inl e => (Raise (of_errno e), w2)
          | inr d =>
              match get_scans_to_run registry
                      (emit (Stdout (results_line d target)) (with_disk d w2)) with
              | (Raise e, w5) => (Raise e, w5)
              | (Ok scans, w5) =>
                  let w6 := emit (Stdout (starting_line target scans)) w5 in
                  (Ok tt,
                   emits closing
                     (advance (length scans)
                        (batch_events w6 target (outdir_of target) 0 scans) w6))
              end
          end
      end
  end.
Proof.
  unfold main. unfold bind at 1. unfold print_banner, print at 1.
  unfold bind at 1. destruct (get_target _) as [[target|e] w1]; [|done].
  unfold bind at 1. destruct (check_nmap w1) as [[[]|e] w2]; [|done].
  unfold bind at 1. unfold path_mkdir at 1. fold (outdir_of target).
  destruct (Pathlib.mkdir true true (disk w2) (outdir_of target)) as [e|d]; [done|].
  unfold bind at 1. unfold path_resolve at 1.
  unfold bind at 1. unfold print at 1.
  unfold bind at 1.
  change (disk (with_disk d w2)) with d. fold (results_line d target).
  destruct (get_scans_to_run registry _) as [[scans|e] w5]; [|done].
  unfold bind at 1. unfold print at 1. fold (starting_line target scans).
  unfold bind at 1. rewrite batch_eq.
  unfold bind, print. simpl. f_equal. unfold closing.
  by rewrite !emits_cons, emits_nil.
Qed.

Lemma talk_only_refl w : talk_only w w.
Proof. by repeat split. Qed.

Lemma talk_only_trans w1 w2 w3 : talk_only w1 w2 -> talk_only w2 w3 -> talk_only w1 w3.
Proof. unfold talk_only. intros H1 H2. destruct_and!. repeat split; congruence. Qed.

Lemma sh_cmds_app l1 l2 : sh_cmds (l1 ++ l2) = (sh_cmds l1 ++ sh_cmds l2)%list.
Proof. apply omap_app. Qed.

Lemma talk_only_emits evs w : sh_cmds evs = [] -> talk_only w (emits evs w).
Proof.
  intros H. unfold talk_only. repeat split; simpl.
  by rewrite sh_cmds_app, H, app_nil_r.
Qed.

Lemma talk_only_emit e w :
  match e with Sh _ => False | _ => True end -> talk_only w (emit e w).
Proof. intros H. rewrite emit_emits. apply talk_only_emits. by destruct e. Qed.

Lemma talk_only_with_stdin l w : talk_only w (with_stdin l w).
Proof. by repeat split. Qed.

Lemma sh_cmds_menu registry : sh_cmds (menu registry) = [].
Proof.
  unfold menu. simpl. rewrite sh_cmds_app. simpl. rewrite app_nil_r.
  induction (enumerate 1 registry); simpl; [done|apply IHl].
Qed.

Local Ltac talk :=
  repeat first
    [ apply talk_only_refl
    | (eapply talk_only_trans; [|apply talk_only_with_stdin])
    | (eapply talk_only_trans; [|apply talk_only_emit; exact I])
    | (eapply talk_only_trans; [|apply talk_only_emits; first [apply sh_cmds_menu|reflexivity]]) ].

Lemma get_target_talk w r w1 : get_target w = (r, w1) -> talk_only w w1.
Proof.
  destruct (argv_target (argv w)) as [a|] eqn:Ha.
  - rewrite (get_target_argv _ _ Ha). intros [= _ <-]. talk.
  - rewrite (get_target_prompt _ Ha).
    destruct (stdin w) as [|line rest]; [intros [= _ <-]; talk|].
    destruct (PyStr.truthy _); intros [= _ <-]; talk.
Qed.

Lemma get_target_raises w e w1 :
  get_target w = (Raise e, w1) ->
  (e = SystemExit 1 /\ prompt_empty w)
  \/ (e = EOFError /\ argv_target (argv w) = None /\ stdin w = []).
Proof.
  destruct (argv_target (argv w)) as [a|] eqn:Ha.
  - by rewrite (get_target_argv _ _ Ha).
  - rewrite (get_target_prompt _ Ha).
    destruct (stdin w) as [|line rest] eqn:Hin; [intros [= <- _]; by right|].
    destruct (PyStr.truthy _) eqn:Ht; [done|]. intros [= <- _]. left.
    split; [done|]. split; [done|]. exists line, rest. split; [done|].
    by destruct (PyStr.strip line).
Qed.


Lemma interactive_choose_scans_eof registry w :
  stdin w = [] ->
  interactive_choose_scans registry w = (Raise EOFError, emits (menu registry) w).
Proof.
  intros Hin. unfold interactive_choose_scans, bind at 1 2.
  unfold print at 1.
  rewrite (for_each_print menu_line); [|by intros [i [label args]] w'].
  unfold bind, input. simpl. rewrite Hin.
  f_equal. unfold menu. rewrite emits_cons, emits_app. reflexivity.
Qed.

Lemma choose_mode_eof w :
  stdin w = [] -> choose_mode w = (Raise EOFError, emits mode_menu w).
Proof.
  intros Hin. unfold choose_mode, bind, print, input. simpl. rewrite Hin.
  f_equal. unfold mode_menu. by rewrite !emits_cons, emits_nil.
Qed.

(** The selection stage: it only talks; it fails only at the end of the
    input; what it returns is the registry, or the profiles at the valid
    indices of a line of picks, in the order of that line. *)
Lemma get_scans_to_run_cases registry w r w' :
  get_scans_to_run registry w = (r, w') ->
  talk_only w w'
  /\ match r with
     | Raise e => e = EOFError
     | Ok scans =>
         scans = registry
         \/ exists picks idxs,
             ints (int_max_str_digits w) (tokens picks) = Some idxs
             /\ scans = chosen registry idxs /\ scans <> []
     end.
Proof.
  destruct (stdin w) as [|line rest] eqn:Hin.
  { unfold get_scans_to_run, bind. rewrite (choose_mode_eof _ Hin).
    intros [= <- <-]. split; [talk|done]. }
  rewrite (get_scans_to_run_mode registry line rest w Hin).
  destruct (String.eqb_spec (PyStr.strip line) "2") as [H2|H2].
  2:{ intros [= <- <-]. split; [talk|by left]. }
  set (w1 := with_stdin rest (emits mode_menu w)).
  assert (Hw1 : talk_only w w1) by (unfold w1; talk).
  destruct rest as [|picks rest'].
  { rewrite interactive_choose_scans_eof by done. intros [= <- <-].
    split; [|done]. eapply talk_only_trans; [exact Hw1|talk]. }
  rewrite (interactive_choose_scans_eq registry picks rest') by done.
  rewrite choose_from_eq.
  set (w2 := with_stdin rest' (emits (menu registry) w1)).
  assert (Hw2 : talk_only w w2).
  { eapply talk_only_trans; [exact Hw1|unfold w2; talk]. }
  destruct (means_all _); [intros [= <- <-]; split; [done|by left]|].
  change (int_max_str_digits w2) with (int_max_str_digits w).
  destruct (ints _ _) as [idxs|] eqn:Hi.
  - intros [= <- <-]. split; [done|].
    destruct (chosen registry idxs) as [|p sel] eqn:Hc; [by left|].
    right. exists (PyStr.lower (PyStr.strip picks)), idxs. by rewrite Hc.
  - intros [= <- <-]. split; [|by left].
    eapply talk_only_trans; [exact Hw2|talk].
Qed.


(* ===================================================================== *)
(** ** Preflight check and exit status *)
(* ===================================================================== *)


(** C6: when [nmap] is missing or [nmap -V] exits with a non-zero status,
    [check_nmap] prints the remediation message and exits with status 1;
    the run as a whole ends with a non-zero status without having run a
    single scan command, and, once a target was obtained, its last two
    events are the version query and the remediation message. *)
Theorem preflight_failure_stops_the_run (registry : list (string * string)) (w : World) :
  nmap_version w <> Some 0 ->
  check_nmap w
  = (Raise (SystemExit 1), emit (Stdout nmap_not_found) (emit (Exec ["nmap"; "-V"]) w))
  /\ exit_status (fst (main registry w)) = 1
  /\ sh_cmds (out (snd (main registry w))) = sh_cmds (out w)
  /\ spawned (snd (main registry w)) = spawned w
  /\ forall target w1,
      get_target (emit (Stdout BANNER) w) = (Ok target, w1) ->
      main registry w
      = (Raise (SystemExit 1),
         emit (Stdout nmap_not_found) (emit (Exec ["nmap"; "-V"]) w1)).
Proof.
  intros Hv. split; [by apply check_nmap_fails|].
  rewrite main_unfold.
  destruct (get_target _) as [[target|e] w1] eqn:Ht.
  - pose proof (get_target_talk _ _ _ Ht) as Htalk.
    assert (Hv1 : nmap_version w1 <> Some 0).
    { unfold talk_only in Htalk. destruct_and!. simpl in *. congruence. }
    rewrite (check_nmap_fails _ Hv1).
    unfold talk_only in Htalk. destruct_and!. simpl in *.
    repeat split; try done.
    + rewrite !sh_cmds_app. simpl. rewrite !app_nil_r.
      match goal with H : sh_cmds (out w1) = _ |- _ => rewrite H end.
      rewrite sh_cmds_app. simpl. by rewrite app_nil_r.
    + by intros ? ? [= <- <-].
  - pose proof (get_target_talk _ _ _ Ht) as Htalk.
    unfold talk_only in Htalk. destruct_and!. simpl in *.
    repeat split; try done.
    + by destruct (get_target_raises _ _ _ Ht) as [[-> _]|[-> _]].
    + match goal with H : sh_cmds (out w1) = _ |- _ => rewrite H end.
      rewrite sh_cmds_app. simpl. by rewrite app_nil_r.
Qed.

Lemma preflight_failure_stops_the_run_witness :
  exit_status (fst (main SCANS
     (world_of ["nmap_auto_banner.py"; "10.0.0.5"] ["1"] None (fun _ _ => 0)))) = 1
  /\ sh_cmds (out (snd (main SCANS
     (world_of ["nmap_auto_banner.py"; "10.0.0.5"] ["1"] None (fun _ _ => 0))))) = []
  /\ exit_status (fst (main SCANS
     (world_of ["nmap_auto_banner.py"] ["10.0.0.5"; "1"] (Some 127) (fun _ _ => 0)))) = 1.
Proof.
  split; [|split].
  - apply (preflight_failure_stops_the_run SCANS
             (world_of ["nmap_auto_banner.py"; "10.0.0.5"] ["1"] None (fun _ _ => 0))).
    discriminate.
  - apply (preflight_failure_stops_the_run SCANS
             (world_of ["nmap_auto_banner.py"; "10.0.0.5"] ["1"] None (fun _ _ => 0))).
    discriminate.
  - apply (preflight_failure_stops_the_run SCANS
             (world_of ["nmap_auto_banner.py"] ["10.0.0.5"; "1"] (Some 127) (fun _ _ => 0))).
    discriminate.
Defined.

Lemma get_target_fst_emit w e : fst (get_target (emit e w)) = fst (get_target w).
Proof.
  destruct (argv_target (argv w)) as [a|] eqn:Ha.
  - by rewrite !(get_target_argv _ a).
  - rewrite !get_target_prompt by done. simpl.
    destruct (stdin w) as [|line rest]; [done|]. by destruct (PyStr.truthy _).
Qed.

(** The exit status of [main]: 1 when the target prompt is answered with a
    blank line or when the preflight check fails, 0 when the loop is
    reached; anything else is a traceback. *)
Lemma main_result registry w :
  let r := fst (main registry w) in
  (r = Raise (SystemExit 1)
   /\ (prompt_empty w
       \/ ((exists target, fst (get_target w) = Ok target) /\ nmap_version w <> Some 0)))
  \/ (r = Ok tt
      /\ (exists target, fst (get_target w) = Ok target) /\ nmap_version w = Some 0)
  \/ traceback r = true.
Proof.
  simpl. rewrite main_unfold.
  pose proof (get_target_fst_emit w) as Hsame.
  destruct (get_target (emit (Stdout BANNER) w)) as [[target|e] w1] eqn:Ht.
  - assert (Hres : exists t, fst (get_target w) = Ok t).
    { exists target. rewrite <- (Hsame (Stdout BANNER)). by rewrite Ht. }
    pose proof (get_target_talk _ _ _ Ht) as Htalk.
    assert (Hv1 : nmap_version w1 = nmap_version w).
    { unfold talk_only in Htalk. by destruct_and!. }
    destruct (decide (nmap_version w = Some 0)) as [Hv|Hv].
    + rewrite check_nmap_ok by congruence.
      destruct (Pathlib.mkdir _ _ _ _) as [err|d]; [right; right; by destruct err|].
      destruct (get_scans_to_run _ _) as [[scans|e] w5] eqn:Hs.
      * right. left. done.
      * apply get_scans_to_run_cases in Hs as [_ ->]. by right; right.
    + rewrite check_nmap_fails by congruence. left. split; [done|]. right. done.
  - destruct (get_target_raises _ _ _ Ht) as [[-> Hp]|[-> _]].
    + left. split; [done|]. left. exact Hp.
    + by right; right.
Qed.

(** C1, as the code has it: in a run that does not end in a traceback, the
    exit status is non-zero exactly when the target prompt was answered with
    a blank line, or a target was obtained and the preflight check failed;
    in every other such run it is 0, whatever the exit statuses of the
    scans.  A target given on the command line is never refused: with a
    working [nmap] the exit status is 0 even when that argument is blank. *)
Theorem exit_status_nonzero_iff (w : World) :
  traceback (fst (script w)) = false ->
  (process_exit w <> 0
   <-> prompt_empty w
       \/ ((exists target, fst (get_target w) = Ok target) /\ nmap_version w <> Some 0))
  /\ (forall a, argv_target (argv w) = Some a -> nmap_version w = Some 0 ->
      resolved_target w = Some (PyStr.strip a) /\ process_exit w = 0).
Proof.
  intros Hno. unfold process_exit, script in *.
  assert (Hpe : prompt_empty w -> forall target, fst (get_target w) <> Ok target).
  { intros [Ha (line & rest & Hin & Hs)] target.
    rewrite (get_target_prompt _ Ha), Hin, Hs. done. }
  destruct (main_result SCANS w) as [[Hr Hc]|[[Hr [Ht Hv]]|Htb]]; simpl in *.
  - split.
    + rewrite Hr. simpl. split; [by intros _|done].
    + intros a Ha Hv. exfalso. destruct Hc as [[Hn _]|[_ Hn]]; congruence.
  - split.
    + rewrite Hr. simpl. split; [done|].
      intros [Hp|[_ Hn]]; [|done]. destruct Ht as [t Ht]. by destruct (Hpe Hp t).
    + intros a Ha _. unfold resolved_target. rewrite Ha, Hr. done.
  - congruence.
Qed.

Lemma exit_status_nonzero_iff_witness :
  (process_exit (world_of ["nmap_auto_banner.py"; " "] ["2"; "9"] (Some 0) (fun _ _ => 3)) <> 0
   <-> prompt_empty (world_of ["nmap_auto_banner.py"; " "] ["2"; "9"] (Some 0) (fun _ _ => 3))
       \/ ((exists target,
              fst (get_target
                     (world_of ["nmap_auto_banner.py"; " "] ["2"; "9"] (Some 0) (fun _ _ => 3)))
              = Ok target)
           /\ nmap_version
                (world_of ["nmap_auto_banner.py"; " "] ["2"; "9"] (Some 0) (fun _ _ => 3))
              <> Some 0))
  /\ resolved_target (world_of ["nmap_auto_banner.py"; " "] ["2"; "9"] (Some 0) (fun _ _ => 3))
     = Some ""
  /\ process_exit (world_of ["nmap_auto_banner.py"; " "] ["2"; "9"] (Some 0) (fun _ _ => 3)) = 0.
Proof.
  pose proof (exit_status_nonzero_iff
                (world_of ["nmap_auto_banner.py"; " "] ["2"; "9"] (Some 0) (fun _ _ => 3))
                eq_refl) as [Hiff Hargv].
  split; [exact Hiff|].
  exact (Hargv " " eq_refl eq_refl).
Defined.

(** C1 as stated fails on a blank command-line argument: target resolution
    yields the empty string, the preflight check passes, and the process
    exits with status 0 after running all seven scans with no target. *)
Lemma blank_argv_target_exits_zero :
  ~ exit_status_as_claimed
      (world_of ["nmap_auto_banner.py"; ""] ["1"] (Some 0) (fun _ _ => 0))
  /\ resolved_target (world_of ["nmap_auto_banner.py"; ""] ["1"] (Some 0) (fun _ _ => 0))
  = Some ""
  /\ nmap_version (world_of ["nmap_auto_banner.py"; ""] ["1"] (Some 0) (fun _ _ => 0))
     = Some 0
  /\ process_exit (world_of ["nmap_auto_banner.py"; ""] ["1"] (Some 0) (fun _ _ => 0)) = 0
  /\ length (sh_cmds (out (snd (script
        (world_of ["nmap_auto_banner.py"; ""] ["1"] (Some 0) (fun _ _ => 0)))))) = 7%nat.
Proof.
  split; [|repeat split; vm_compute; reflexivity].
  intros [_ Hclaim]. apply Hclaim; [by right|]. vm_compute. reflexivity.
Qed.


(* ===================================================================== *)
(** ** The batch *)
(* ===================================================================== *)

Lemma batch_events_app w target outdir k l1 l2 :
  batch_events w target outdir k (l1 ++ l2)
  = (batch_events w target outdir k l1
     ++ batch_events w target outdir (k + length l1) l2)%list.
Proof.
  revert k. induction l1 as [|p l1 IH]; intros k; simpl.
  - by rewrite Nat.add_0_r.
  - rewrite IH. simpl. do 5 f_equal. by rewrite Nat.add_succ_r.
Qed.

Lemma length_sh_cmds_batch w target outdir k scans :
  length (sh_cmds (batch_events w target outdir k scans)) = length scans.
Proof. by rewrite sh_cmds_batch, length_imap. Qed.

(** The events of a failed scan inside those of the loop: its command,
    directly followed by its report, with [k] commands before and all the
    remaining ones after. *)
Lemma batch_events_failed w target outdir scans k p :
  scans !! k = Some p ->
  scan_rc w target outdir k p <> 0 ->
  batch_events w target outdir 0 scans
  = ((batch_events w target outdir 0 (take k scans)
      ++ [ Stdout (nl +:+ "--- Running: " +:+ fst p +:+ " ---");
           Stdout ("Cmd: " +:+ scan_cmd w target outdir k p) ])
     ++ [ Sh (scan_cmd w target outdir k p);
          Stdout ("[!] Scan " +:+ fst p +:+ " failed (exit "
                  +:+ PyStr.of_Z (scan_rc w target outdir k p) +:+ ").") ]
     ++ batch_events w target outdir (S k) (drop (S k) scans))%list.
Proof.
  intros Hk Hrc. pose proof (lookup_lt_Some _ _ _ Hk) as Hlt.
  rewrite <- (take_drop_middle _ _ _ Hk) at 1.
  rewrite batch_events_app, length_take_le by lia. simpl.
  unfold scan_events, scan_report. apply Z.eqb_neq in Hrc. rewrite Hrc.
  unfold failed_msg. by rewrite <- !app_assoc.
Qed.

Lemma batch_events_same w w' target outdir k scans :
  clock w' = clock w -> ticks w' = ticks w ->
  shell_rc w' = shell_rc w -> spawned w' = spawned w ->
  batch_events w' target outdir k scans = batch_events w target outdir k scans.
Proof.
  intros Hc Ht Hr Hs. revert k. induction scans as [|p scans IH]; intros k; simpl; [done|].
  rewrite IH. f_equal.
  unfold scan_events, scan_report, scan_rc, scan_cmd, scan_outbase.
  by rewrite Hc, Ht, Hr, Hs.
Qed.

Local Ltac same_world w :=
  destruct w; unfold emits, emit, with_stdin, with_disk, advance;
  cbn [argv stdin nmap_version shell_rc clock int_max_str_digits disk ticks spawned out];
  f_equal; rewrite ?app_nil_r, <- ?app_assoc; try reflexivity.

(** Target resolution, when it yields a target. *)
Lemma get_target_ok w target e :
  fst (get_target w) = Ok target ->
  get_target (emit e w)
  = (Ok target, with_stdin (lines_after_target w) (emits (target_events w) (emit e w))).
Proof.
  unfold lines_after_target, target_events.
  destruct (argv_target (argv w)) as [a|] eqn:Ha.
  - rewrite (get_target_argv _ _ Ha). rewrite (get_target_argv (emit e w) a) by done.
    simpl. intros [= <-]. f_equal. destruct w. unfold emits, emit, with_stdin. simpl.
    by rewrite app_nil_r.
  - rewrite (get_target_prompt _ Ha). rewrite (get_target_prompt (emit e w)) by done.
    simpl. destruct (stdin w) as [|line rest]; [done|].
    destruct (PyStr.truthy (PyStr.strip line)); [|done].
    simpl. by intros [= <-].
Qed.

(** The selection stage as a function of the input lines. *)
Lemma get_scans_to_run_eq registry w :
  get_scans_to_run registry w
  = (match selected registry (int_max_str_digits w) (stdin w) with
     | Some scans => Ok scans
     | None => Raise EOFError
     end,
     with_stdin (lines_after_selection (stdin w))
       (emits (selection_events registry (int_max_str_digits w) (stdin w)) w)).
Proof.
  destruct (stdin w) as [|mode rest] eqn:Hin.
  { unfold get_scans_to_run, bind. rewrite (choose_mode_eof _ Hin).
    cbn [selected selection_events lines_after_selection].
    f_equal. destruct w. simpl in *. by subst. }
  rewrite (get_scans_to_run_mode registry mode rest w Hin).
  cbn [selected selection_events lines_after_selection].
  destruct (String.eqb (PyStr.strip mode) "2"); [|done].
  destruct rest as [|line rest'].
  { rewrite interactive_choose_scans_eof by done. f_equal. same_world w. }
  rewrite (interactive_choose_scans_eq registry line rest') by done.
  rewrite choose_from_eq. unfold picked, warned. cbn [tail].
  change (int_max_str_digits (with_stdin rest' (emits (menu registry)
            (with_stdin (line :: rest') (emits mode_menu w)))))
    with (int_max_str_digits w).
  destruct (means_all _); [f_equal; same_world w|].
  destruct (ints _ _) as [idxs|]; f_equal; same_world w.
Qed.

Lemma sh_cmds_selection_events registry m lines :
  sh_cmds (selection_events registry m lines) = [].
Proof.
  unfold selection_events. destruct lines as [|mode rest]; [done|].
  destruct (String.eqb _ _); [|done].
  rewrite !sh_cmds_app, sh_cmds_menu. simpl.
  destruct rest as [|line ?]; [done|]. by destruct (warned m line).
Qed.

Lemma sh_cmds_preamble registry w target d : sh_cmds (preamble registry w target d) = [].
Proof.
  unfold preamble. rewrite app_comm_cons, !sh_cmds_app, sh_cmds_selection_events.
  unfold target_events. by destruct (argv_target (argv w)).
Qed.

Lemma sh_cmds_stdout x l : sh_cmds (Stdout x :: l) = sh_cmds l.
Proof. reflexivity. Qed.

Lemma sh_cmds_closing : sh_cmds closing = [].
Proof. reflexivity. Qed.

Lemma out_after_run registry w target d scans :
  out (after_run registry w target d scans)
  = (out w ++ preamble registry w target d
           ++ Stdout (starting_line target scans)
           :: batch_events w target (outdir_of target) 0 scans ++ closing)%list.
Proof. reflexivity. Qed.

(** The shell commands of a run that reached the loop. *)
Lemma sh_cmds_after_run registry w target d scans :
  sh_cmds (out (after_run registry w target d scans))
  = (sh_cmds (out w) ++ imap (scan_cmd w target (outdir_of target)) scans)%list.
Proof.
  rewrite out_after_run, !sh_cmds_app, sh_cmds_preamble, sh_cmds_stdout, sh_cmds_app.
  rewrite sh_cmds_closing, sh_cmds_batch, app_nil_r. reflexivity.
Qed.

(** A whole run that reaches the loop: it returns normally, in the world
    [after_run]. *)
Lemma main_eq registry w target d scans :
  fst (get_target w) = Ok target ->
  nmap_version w = Some 0 ->
  Pathlib.mkdir true true (disk w) (outdir_of target) = inr d ->
  selected registry (int_max_str_digits w) (lines_after_target w) = Some scans ->
  main registry w = (Ok tt, after_run registry w target d scans).
Proof.
  intros Ht Hv Hmk Hsel. rewrite main_unfold.
  rewrite (get_target_ok _ _ (Stdout BANNER) Ht).
  rewrite check_nmap_ok by exact Hv.
  change (disk (emit (Exec ["nmap"; "-V"])
                  (with_stdin (lines_after_target w)
                     (emits (target_events w) (emit (Stdout BANNER) w)))))
    with (disk w).
  rewrite Hmk, get_scans_to_run_eq.
  change (int_max_str_digits (emit _ (with_disk d _))) with (int_max_str_digits w).
  change (stdin (emit _ (with_disk d _))) with (lines_after_target w).
  rewrite Hsel. cbv zeta. f_equal.
  rewrite (batch_events_same w) by reflexivity.
  destruct w.
  cbv [after_run preamble advance emits emit with_stdin with_disk
       argv stdin nmap_version shell_rc clock int_max_str_digits disk ticks spawned out].
  f_equal. rewrite <- !app_assoc. cbn [app]. rewrite <- !app_assoc. reflexivity.
Qed.

(** A run returns normally only when it reached the loop. *)
Lemma main_ok_inv registry w :
  fst (main registry w) = Ok tt ->
  exists target d scans,
    fst (get_target w) = Ok target
    /\ nmap_version w = Some 0
    /\ Pathlib.mkdir true true (disk w) (outdir_of target) = inr d
    /\ selected registry (int_max_str_digits w) (lines_after_target w) = Some scans.
Proof.
  destruct (fst (get_target w)) as [target|e] eqn:Ht.
  2:{ rewrite main_unfold. pose proof (get_target_fst_emit w (Stdout BANNER)) as Hsame.
      destruct (get_target (emit (Stdout BANNER) w)) as [[t|e'] w1]; [|done].
      simpl in Hsame. congruence. }
  rewrite main_unfold, (get_target_ok _ _ (Stdout BANNER) Ht).
  destruct (decide (nmap_version w = Some 0)) as [Hv|Hv].
  2:{ by rewrite check_nmap_fails. }
  rewrite check_nmap_ok by done.
  change (disk (emit (Exec ["nmap"; "-V"])
                  (with_stdin (lines_after_target w)
                     (emits (target_events w) (emit (Stdout BANNER) w)))))
    with (disk w).
  destruct (Pathlib.mkdir true true (disk w) (outdir_of target)) as [err|d] eqn:Hmk; [done|].
  rewrite get_scans_to_run_eq.
  change (int_max_str_digits (emit _ (with_disk d _))) with (int_max_str_digits w).
  change (stdin (emit _ (with_disk d _))) with (lines_after_target w).
  destruct (selected registry _ _) as [scans|] eqn:Hsel; [|done].
  intros _. by exists target, d, scans.
Qed.

(** C7: in every run that reaches the loop (a target, a working [nmap], an
    output directory, a selection), [main] returns normally with exit
    status 0 whatever the exit statuses of the scans, after one shell
    command per selected profile, in the order of the selection.  A scan
    whose command exits with a non-zero status is reported with its label
    and that status, directly after its command; the commands of all the
    profiles before it were run before, and those of all the profiles after
    it are run after. *)
Theorem failed_scan_does_not_abort (registry : list (string * string)) (w : World)
        (target : string) (d : Pathlib.FS) (scans : list (string * string)) :
  fst (get_target w) = Ok target ->
  nmap_version w = Some 0 ->
  Pathlib.mkdir true true (disk w) (outdir_of target) = inr d ->
  selected registry (int_max_str_digits w) (lines_after_target w) = Some scans ->
  main registry w = (Ok tt, after_run registry w target d scans)
  /\ exit_status (fst (main registry w)) = 0
  /\ sh_cmds (out (snd (main registry w)))
     = (sh_cmds (out w) ++ imap (scan_cmd w target (outdir_of target)) scans)%list
  /\ forall k p,
      scans !! k = Some p ->
      scan_rc w target (outdir_of target) k p <> 0 ->
      exists before after,
        out (snd (main registry w))
        = (before
           ++ [ Sh (scan_cmd w target (outdir_of target) k p);
                Stdout ("[!] Scan " +:+ fst p +:+ " failed (exit "
                        +:+ PyStr.of_Z (scan_rc w target (outdir_of target) k p) +:+ ").") ]
           ++ after)%list
        /\ sh_cmds before
           = (sh_cmds (out w)
              ++ imap (scan_cmd w target (outdir_of target)) (take k scans))%list
        /\ sh_cmds after
           = imap (fun j => scan_cmd w target (outdir_of target) (S k + j))
                  (drop (S k) scans).
Proof.
  intros Ht Hv Hmk Hsel. rewrite (main_eq registry w target d scans Ht Hv Hmk Hsel).
  split; [done|]. split; [done|]. cbn [snd]. split; [apply sh_cmds_after_run|].
  intros k p Hk Hrc. pose proof (lookup_lt_Some _ _ _ Hk) as Hlt.
  exists (out w ++ preamble registry w target d
          ++ Stdout (starting_line target scans)
          :: batch_events w target (outdir_of target) 0 (take k scans)
          ++ [ Stdout (nl +:+ "--- Running: " +:+ fst p +:+ " ---");
               Stdout ("Cmd: " +:+ scan_cmd w target (outdir_of target) k p) ])%list,
         (batch_events w target (outdir_of target) (S k) (drop (S k) scans) ++ closing)%list.
  split; [|split].
  - rewrite out_after_run.
    rewrite (batch_events_failed w target (outdir_of target) scans k p Hk Hrc).
    rewrite <- !app_assoc. cbn [app]. by rewrite <- !app_assoc.
  - rewrite !sh_cmds_app, sh_cmds_preamble, sh_cmds_stdout, sh_cmds_app, sh_cmds_batch.
    change (sh_cmds [_; _]) with (@nil string). by rewrite app_nil_r.
  - by rewrite sh_cmds_app, sh_cmds_batch, sh_cmds_closing, app_nil_r.
Qed.

Lemma failed_scan_does_not_abort_witness :
  exit_status (fst (main SCANS
     (world_of ["nmap_auto_banner.py"; "10.0.0.5"] ["1"] (Some 0)
               (fun k _ => if (k =? 1)%nat then 2 else 0)))) = 0
  /\ exists before after,
      out (snd (main SCANS
        (world_of ["nmap_auto_banner.py"; "10.0.0.5"] ["1"] (Some 0)
                  (fun k _ => if (k =? 1)%nat then 2 else 0))))
      = (before
         ++ [ Sh "nmap -sS -p- -T3 -Pn -oA results/10.0.0.5/tcp_full_all_ports_20261104_090508 10.0.0.5";
              Stdout "[!] Scan tcp_full_all_ports failed (exit 2)." ]
         ++ after)%list
      /\ length (sh_cmds before) = 1%nat
      /\ length (sh_cmds after) = 5%nat.
Proof.
  pose proof (failed_scan_does_not_abort SCANS
    (world_of ["nmap_auto_banner.py"; "10.0.0.5"] ["1"] (Some 0)
              (fun k _ => if (k =? 1)%nat then 2 else 0))
    "10.0.0.5" _ SCANS eq_refl eq_refl eq_refl eq_refl) as (_ & He & _ & Hf).
  split; [exact He|].
  destruct (Hf 1%nat ("tcp_full_all_ports", "-sS -p- -T3 -Pn") eq_refl
              ltac:(vm_compute; discriminate)) as (before & after & Ho & Hb & Ha).
  exists before, after. split; [exact Ho|].
  split; [rewrite Hb|rewrite Ha]; reflexivity.
Defined.


(* ===================================================================== *)
(** ** Which scans run, and in which order *)
(* ===================================================================== *)

Lemma scan_cmd_same_time w w' target outdir k p :
  clock w' = clock w -> ticks w' = ticks w ->
  scan_cmd w' target outdir k p = scan_cmd w target outdir k p.
Proof. intros Hc Ht. unfold scan_cmd, scan_outbase. by rewrite Hc, Ht. Qed.

Lemma sublist_subseqb l1 l2 : l1 `sublist_of` l2 -> subseqb l1 l2 = true.
Proof.
  induction 1 as [|x l1 l2 _ IH|x l1 l2 _ IH]; simpl.
  - done.
  - rewrite bool_decide_eq_true_2 by done. by rewrite IH.
  - destruct l1; [done|]. rewrite IH. apply orb_true_r.
Qed.

(** Indices out of range are skipped; the profiles at the others are taken
    in the order of the indices, one per index. *)
Lemma chosen_cons registry i idxs :
  chosen registry (i :: idxs)
  = (match (if in_range registry i then registry !! Z.to_nat (i - 1) else None) with
     | Some p => p :: chosen registry idxs
     | None => chosen registry idxs
     end).
Proof. reflexivity. Qed.

Lemma chosen_skips registry idxs :
  chosen registry idxs = chosen registry (List.filter (in_range registry) idxs).
Proof.
  induction idxs as [|i idxs IH]; [done|].
  rewrite chosen_cons. cbn [List.filter].
  destruct (in_range registry i) eqn:Hr; [|done].
  rewrite chosen_cons, Hr. by rewrite <- IH.
Qed.

Lemma chosen_lookup registry idxs :
  forallb (in_range registry) idxs = true ->
  map Some (chosen registry idxs) = map (fun i => registry !! Z.to_nat (i - 1)) idxs.
Proof.
  induction idxs as [|i idxs IH]; [done|]. cbn [forallb map].
  intros H. apply andb_prop in H as [Hr Hall].
  rewrite chosen_cons, Hr. destruct (in_range_lookup registry i Hr) as [p Hp].
  rewrite Hp. cbn [map]. by rewrite IH.
Qed.

(** C2, as the code has it: a run that reaches its end executes exactly one
    shell command per entry of the selection, in the order of the selection,
    and nothing is retried.  The selection is determined by the input lines
    that follow the target: it is the registry when the answer to the mode
    prompt is not ["2"]; when it is ["2"], it is what the next line picks
    (the registry for ["all"], for an empty line and for every fallback;
    else the profiles at the indices in range, in the order in which they
    were typed and as often as they were typed).  A run that does not reach
    its end executes no scan. *)
Theorem scans_run_in_selection_order (registry : list (string * string)) (w : World) :
  (fst (main registry w) = Ok tt ->
   exists target scans,
     fst (get_target w) = Ok target
     /\ selected registry (int_max_str_digits w) (lines_after_target w) = Some scans
     /\ sh_cmds (out (snd (main registry w)))
        = (sh_cmds (out w) ++ imap (scan_cmd w target (outdir_of target)) scans)%list)
  /\ (fst (main registry w) <> Ok tt ->
      sh_cmds (out (snd (main registry w))) = sh_cmds (out w))
  /\ (forall m mode rest,
        PyStr.strip mode <> "2" -> selected registry m (mode :: rest) = Some registry)
  /\ (forall m mode line rest idxs p sel,
        PyStr.strip mode = "2" ->
        means_all (PyStr.lower (PyStr.strip line)) = false ->
        ints m (tokens (PyStr.lower (PyStr.strip line))) = Some idxs ->
        chosen registry idxs = p :: sel ->
        selected registry m (mode :: line :: rest) = Some (chosen registry idxs))
  /\ (forall idxs,
        chosen registry idxs = chosen registry (List.filter (in_range registry) idxs))
  /\ (forall idxs,
        forallb (in_range registry) idxs = true ->
        map Some (chosen registry idxs)
        = map (fun i => registry !! Z.to_nat (i - 1)) idxs).
Proof.
  split; [|split; [|split; [|split; [|split]]]].
  - intros Hok. destruct (main_ok_inv registry w Hok) as (target & d & scans & Ht & Hv & Hmk & Hsel).
    exists target, scans. split; [done|]. split; [done|].
    rewrite (main_eq registry w target d scans Ht Hv Hmk Hsel). cbn [snd].
    apply sh_cmds_after_run.
  - rewrite main_unfold.
    destruct (get_target (emit (Stdout BANNER) w)) as [[target|e] w1] eqn:Ht;
      pose proof (get_target_talk _ _ _ Ht) as Htalk;
      unfold talk_only in Htalk; destruct_and!; simpl in *.
    2:{ intros _.
        match goal with H : sh_cmds (out w1) = _ |- _ => rewrite H end.
        rewrite sh_cmds_app. simpl. by rewrite app_nil_r. }
    assert (Hw1 : sh_cmds (out w1) = sh_cmds (out w)).
    { match goal with H : sh_cmds (out w1) = _ |- _ => rewrite H end.
      rewrite sh_cmds_app. simpl. by rewrite app_nil_r. }
    destruct (decide (nmap_version w1 = Some 0)) as [Hv|Hv].
    2:{ rewrite check_nmap_fails by done. simpl. intros _.
        rewrite !sh_cmds_app. simpl. by rewrite !app_nil_r. }
    rewrite check_nmap_ok by done. simpl.
    destruct (Pathlib.mkdir _ _ _ _) as [err|d].
    { simpl. intros _. rewrite sh_cmds_app. simpl. by rewrite app_nil_r. }
    destruct (get_scans_to_run _ _) as [[scans|e] w5] eqn:Hs; [done|].
    apply get_scans_to_run_cases in Hs as [Htalk5 Hsel].
    unfold talk_only in Htalk5; destruct_and!; simpl in *.
    intros _.
    match goal with H : sh_cmds (out w5) = _ |- _ => rewrite H end.
    rewrite !sh_cmds_app. simpl. by rewrite !app_nil_r.
  - intros m mode rest Hne. cbn [selected].
    by destruct (String.eqb_spec (PyStr.strip mode) "2").
  - intros m mode line rest idxs p sel Hm Hall Hi Hc. cbn [selected]. rewrite Hm.
    change (String.eqb "2" "2") with true. cbv iota. unfold picked.
    by rewrite Hall, Hi, Hc.
  - apply chosen_skips.
  - apply chosen_lookup.
Qed.

Lemma scans_run_in_selection_order_witness :
  exists target scans,
    fst (get_target (world_of ["nmap_auto_banner.py"; "10.0.0.5"] ["2"; "3,1,3"]
                              (Some 0) (fun _ _ => 0))) = Ok target
    /\ selected SCANS 4300 ["2"; "3,1,3"] = Some scans
    /\ sh_cmds (out (snd (main SCANS
          (world_of ["nmap_auto_banner.py"; "10.0.0.5"] ["2"; "3,1,3"]
                    (Some 0) (fun _ _ => 0)))))
       = ([] ++ imap (scan_cmd (world_of ["nmap_auto_banner.py"; "10.0.0.5"] ["2"; "3,1,3"]
                                        (Some 0) (fun _ _ => 0))
                               target (outdir_of target)) scans)%list.
Proof.
  apply (proj1 (scans_run_in_selection_order SCANS
           (world_of ["nmap_auto_banner.py"; "10.0.0.5"] ["2"; "3,1,3"]
                     (Some 0) (fun _ _ => 0)))).
  vm_compute. reflexivity.
Defined.

(** C2 as stated fails in interactive mode.  With the picks ["3,1"] the
    third profile is run before the first one; with ["1,1"] the first profile
    is run twice. *)
Lemma picks_are_run_as_typed :
  fst (get_scans_to_run SCANS
         (world_of ["nmap_auto_banner.py"; "10.0.0.5"] ["2"; "3,1"] (Some 0) (fun _ _ => 0)))
  = Ok [("service_version", "-sV -sC -T4 -Pn");
        ("tcp_quick_top1000", "-sS -T4 --top-ports 1000 -Pn")]
  /\ sh_cmds (out (snd (script
        (world_of ["nmap_auto_banner.py"; "10.0.0.5"] ["2"; "3,1"] (Some 0) (fun _ _ => 0)))))
     = ["nmap -sV -sC -T4 -Pn -oA results/10.0.0.5/service_version_20261104_090507 10.0.0.5";
        "nmap -sS -T4 --top-ports 1000 -Pn -oA results/10.0.0.5/tcp_quick_top1000_20261104_090508 10.0.0.5"]
  /\ ~ in_registry_order_once SCANS
        [("service_version", "-sV -sC -T4 -Pn");
         ("tcp_quick_top1000", "-sS -T4 --top-ports 1000 -Pn")]
  /\ fst (get_scans_to_run SCANS
         (world_of ["nmap_auto_banner.py"; "10.0.0.5"] ["2"; "1,1"] (Some 0) (fun _ _ => 0)))
     = Ok [("tcp_quick_top1000", "-sS -T4 --top-ports 1000 -Pn");
           ("tcp_quick_top1000", "-sS -T4 --top-ports 1000 -Pn")]
  /\ sh_cmds (out (snd (script
        (world_of ["nmap_auto_banner.py"; "10.0.0.5"] ["2"; "1,1"] (Some 0) (fun _ _ => 0)))))
     = ["nmap -sS -T4 --top-ports 1000 -Pn -oA results/10.0.0.5/tcp_quick_top1000_20261104_090507 10.0.0.5";
        "nmap -sS -T4 --top-ports 1000 -Pn -oA results/10.0.0.5/tcp_quick_top1000_20261104_090508 10.0.0.5"]
  /\ ~ in_registry_order_once SCANS
        [("tcp_quick_top1000", "-sS -T4 --top-ports 1000 -Pn");
         ("tcp_quick_top1000", "-sS -T4 --top-ports 1000 -Pn")].
Proof.
  split; [vm_compute; reflexivity|]. split; [vm_compute; reflexivity|].
  split.
  { intros [Hsub _]. apply sublist_subseqb in Hsub. vm_compute in Hsub. discriminate. }
  split; [vm_compute; reflexivity|]. split; [vm_compute; reflexivity|].
  intros [_ Hnd]. apply NoDup_cons in Hnd as [Hin _]. apply Hin. by left.
Qed.


(* ===================================================================== *)
(** ** Strings, paths and timestamps *)
(* ===================================================================== *)

Lemma str_app_cons (x : ascii) (a b : string) : String x a +:+ b = String x (a +:+ b).
Proof. reflexivity. Qed.

Lemma str_app_nil_l (b : string) : "" +:+ b = b.
Proof. reflexivity. Qed.

Lemma str_app_assoc (a b c : string) : (a +:+ b) +:+ c = a +:+ (b +:+ c).
Proof.
  induction a as [|x a IH]; [done|]. by rewrite !str_app_cons, IH.
Qed.


Lemma str_length_app (a b : string) :
  String.length (a +:+ b) = (String.length a + String.length b)%nat.
Proof.
  induction a as [|x a IH]; [done|]. rewrite str_app_cons. simpl. by rewrite IH.
Qed.

Lemma str_app_inj_l (a1 a2 b1 b2 : string) :
  String.length a1 = String.length a2 ->
  a1 +:+ b1 = a2 +:+ b2 -> a1 = a2 /\ b1 = b2.
Proof.
  revert a2. induction a1 as [|x a1 IH]; intros [|y a2]; simpl; try done.
  rewrite !str_app_cons.
  intros [= Hl] [= -> Happ]. destruct (IH _ Hl Happ) as [-> ->]. done.
Qed.

Lemma str_app_inj_r (a1 a2 b1 b2 : string) :
  String.length b1 = String.length b2 ->
  a1 +:+ b1 = a2 +:+ b2 -> a1 = a2 /\ b1 = b2.
Proof.
  intros Hl Happ. apply str_app_inj_l; [|done].
  apply (f_equal String.length) in Happ. rewrite !str_length_app in Happ. lia.
Qed.

Lemma no_slash_app a b : no_slash (a +:+ b) = no_slash a && no_slash b.
Proof.
  induction a as [|x a IH]; [done|]. rewrite str_app_cons. simpl.
  by rewrite IH, andb_assoc.
Qed.

Lemma split_no_slash s : no_slash s = true -> PyStr.split "/" s = [s].
Proof.
  induction s as [|c s IH]; simpl; [done|].
  intros H. apply andb_prop in H as [Hc Hs].
  destruct (Ascii.eqb c "/"); [done|]. by rewrite (IH Hs).
Qed.

(** A name without a slash, other than [""] and ["."], is a path of one
    component, and joining it to a directory adds that component. *)
Lemma parse_name s :
  no_slash s = true -> s <> "" -> s <> "." ->
  Pathlib.parse s = Pathlib.MkPath Pathlib.Relative [s].
Proof.
  intros Hs Hne Hdot. unfold Pathlib.parse. rewrite (split_no_slash _ Hs). simpl.
  assert (Hk : Pathlib.keep_part s = true).
  { unfold Pathlib.keep_part. destruct s as [|c s]; [done|].
    change (PyStr.truthy (String c s)) with true.
    by destruct (String.eqb_spec (String c s) "."). }
  rewrite Hk. f_equal. unfold Pathlib.root_of.
  destruct s as [|c s]; [done|]. simpl in *.
  destruct (Ascii.eqb_spec c "/") as [->|Hc]; [done|].
  destruct c as [[] [] [] [] [] [] [] []]; try done.
Qed.

Lemma joinpath_name p s :
  no_slash s = true -> s <> "" -> s <> "." ->
  Pathlib.joinpath p s = Pathlib.MkPath (Pathlib.anchor p) (Pathlib.parts p ++ [s]).
Proof. intros. unfold Pathlib.joinpath. by rewrite parse_name. Qed.

Lemma join_snoc sep ps x :
  ps <> [] -> PyStr.join sep (ps ++ [x]) = PyStr.join sep ps +:+ sep +:+ x.
Proof.
  induction ps as [|p ps IH]; [done|]. intros _.
  destruct ps as [|q ps]; [done|].
  change (PyStr.join sep ((p :: q :: ps) ++ [x]))
    with (p +:+ sep +:+ PyStr.join sep ((q :: ps) ++ [x])).
  rewrite IH by done.
  change (PyStr.join sep (p :: q :: ps)) with (p +:+ sep +:+ PyStr.join sep (q :: ps)).
  by rewrite !str_app_assoc.
Qed.

Lemma to_str_child a ps x :
  ps <> [] ->
  Pathlib.to_str (Pathlib.MkPath a (ps ++ [x]))
  = Pathlib.to_str (Pathlib.MkPath a ps) +:+ "/" +:+ x.
Proof.
  intros Hne. pose proof (join_snoc "/" ps x Hne) as Hj.
  destruct ps as [|p ps]; [done|].
  unfold Pathlib.to_str. cbn [Pathlib.anchor Pathlib.parts].
  destruct a; cbn [Pathlib.root_str].
  - change ((p :: ps) ++ [x])%list with (p :: (ps ++ [x]))%list. cbv iota.
    change (p :: (ps ++ [x]))%list with ((p :: ps) ++ [x])%list.
    by rewrite Hj, !str_app_nil_l.
  - by rewrite Hj, !str_app_assoc.
  - by rewrite Hj, !str_app_assoc.
Qed.

Lemma no_slash_uint d : no_slash (NilEmpty.string_of_uint d) = true.
Proof. induction d; simpl; done. Qed.

Lemma no_slash_of_nat n : no_slash (PyStr.of_nat n) = true.
Proof.
  unfold PyStr.of_nat, NilZero.string_of_uint.
  destruct (Nat.to_uint n) eqn:E; try done; rewrite <- E; apply no_slash_uint.
Qed.

Lemma no_slash_pad2 n : no_slash (pad2 n) = true.
Proof.
  unfold pad2. destruct (n <? 10)%nat; [|apply no_slash_of_nat].
  rewrite no_slash_app, no_slash_of_nat. done.
Qed.

Lemma no_slash_strftime d : no_slash (strftime_Ymd_HMS d) = true.
Proof.
  unfold strftime_Ymd_HMS.
  by rewrite !no_slash_app, no_slash_of_nat, !no_slash_pad2.
Qed.

(** [<label>_<timestamp>] is a plain file name when the label has no slash. *)
Lemma scan_name_plain label d :
  no_slash label = true ->
  no_slash (label +:+ "_" +:+ strftime_Ymd_HMS d) = true
  /\ label +:+ "_" +:+ strftime_Ymd_HMS d <> ""
  /\ label +:+ "_" +:+ strftime_Ymd_HMS d <> ".".
Proof.
  intros Hl. split; [|split].
  - by rewrite !no_slash_app, Hl, no_slash_strftime.
  - by destruct label.
  - destruct label as [|c [|c' l]]; try done.
Qed.

Lemma no_slash_labels : Forall (fun p => no_slash (fst p) = true) SCANS.
Proof. repeat constructor. Qed.

Lemma of_nat_inj a b : PyStr.of_nat a = PyStr.of_nat b -> a = b.
Proof.
  unfold PyStr.of_nat. intros H.
  assert (Hnn : forall n, Nat.to_uint n <> Decimal.Nil).
  { intros n Hn. pose proof (DecimalNat.Unsigned.of_to n) as Hof.
    rewrite Hn in Hof. simpl in Hof. subst n. discriminate Hn. }
  apply DecimalNat.Unsigned.to_uint_inj.
  pose proof (NilZero.usu _ (Hnn a)) as Ha.
  pose proof (NilZero.usu _ (Hnn b)) as Hb.
  rewrite H in Ha. congruence.
Qed.

Lemma pad2_facts :
  forallb (fun n =>
    (String.length (pad2 n) =? 2)%nat
    && forallb (fun m => negb (String.eqb (pad2 n) (pad2 m)) || (n =? m)%nat) (seq 0 100))
    (seq 0 100) = true.
Proof. vm_compute. reflexivity. Qed.

Lemma length_pad2 n : (n < 100)%nat -> String.length (pad2 n) = 2%nat.
Proof.
  intros Hn. pose proof pad2_facts as H.
  rewrite forallb_forall in H. specialize (H n).
  rewrite in_seq in H. apply andb_prop in H as [H _]; [|lia].
  by apply Nat.eqb_eq.
Qed.

Lemma pad2_inj n m : (n < 100)%nat -> (m < 100)%nat -> pad2 n = pad2 m -> n = m.
Proof.
  intros Hn Hm Heq. pose proof pad2_facts as H.
  rewrite forallb_forall in H. specialize (H n).
  rewrite in_seq in H. apply andb_prop in H as [_ H]; [|lia].
  rewrite forallb_forall in H. specialize (H m).
  rewrite in_seq in H. rewrite Heq, String.eqb_refl in H. simpl in H.
  apply Nat.eqb_eq, H. lia.
Qed.

(** The timestamp tells the date and time to the second, and nothing more. *)
Lemma strftime_to_the_second d1 d2 :
  two_digit_fields d1 -> two_digit_fields d2 ->
  (strftime_Ymd_HMS d1 = strftime_Ymd_HMS d2 <-> to_the_second d1 = to_the_second d2).
Proof.
  intros (Hmo1 & Hda1 & Hh1 & Hmi1 & Hs1) (Hmo2 & Hda2 & Hh2 & Hmi2 & Hs2).
  unfold strftime_Ymd_HMS, to_the_second. split.
  - intros H.
    apply str_app_inj_r in H as [Hy H].
    2:{ rewrite !str_length_app, !length_pad2 by done. done. }
    apply str_app_inj_l in H as [Hmo H]; [|by rewrite !length_pad2].
    apply str_app_inj_l in H as [Hda H]; [|by rewrite !length_pad2].
    apply (str_app_inj_l "_" "_") in H as [_ H]; [|done].
    apply str_app_inj_l in H as [Hh H]; [|by rewrite !length_pad2].
    apply str_app_inj_l in H as [Hmi Hs]; [|by rewrite !length_pad2].
    apply of_nat_inj in Hy. apply pad2_inj in Hmo, Hda, Hh, Hmi, Hs; try done.
    congruence.
  - intros [= -> -> -> -> -> ->]. done.
Qed.

Lemma saved_msg_join p :
  saved_msg p
  = "[+] Saved outputs: "
    +:+ PyStr.join ", " [ Pathlib.to_str p +:+ ".nmap"; Pathlib.to_str p +:+ ".xml";
                          Pathlib.to_str p +:+ ".gnmap" ].
Proof.
  unfold saved_msg. generalize (Pathlib.to_str p). intros b.
  unfold PyStr.join. by rewrite !str_app_assoc.
Qed.

(* ===================================================================== *)
(** ** The output paths of a scan *)
(* ===================================================================== *)

(** C8: for a profile of the registry, [run_scan] composes the output base
    [<outdir>/<label>_<timestamp>], a path without extension whose last
    component is the label, an underscore and a timestamp that tells the time
    to the second; the command is [nmap <args> -oA <base> <target>]; when
    the command exits with status 0 the report names exactly the three
    paths [<base>.nmap], [<base>.xml] and [<base>.gnmap]. *)
Theorem run_scan_output_paths (label args target : string)
        (outdir : Pathlib.Path) (w : World) :
  In (label, args) SCANS ->
  let timestamp := strftime_Ymd_HMS (clock w (ticks w)) in
  let outbase :=
    Pathlib.MkPath (Pathlib.anchor outdir)
                   (Pathlib.parts outdir ++ [label +:+ "_" +:+ timestamp]) in
  let base := Pathlib.to_str outbase in
  let cmd := "nmap " +:+ args +:+ " -oA " +:+ base +:+ " " +:+ target in
  let rc := shell_rc w (spawned w) cmd in
  run_scan target label args outdir w
  = (Ok tt,
     advance 1
       [ Stdout (nl +:+ "--- Running: " +:+ label +:+ " ---");
         Stdout ("Cmd: " +:+ cmd);
         Sh cmd;
         Stdout (if rc =? 0
                 then "[+] Saved outputs: "
                      +:+ PyStr.join ", " [base +:+ ".nmap"; base +:+ ".xml"; base +:+ ".gnmap"]
                 else failed_msg label rc) ] w)
  /\ (Pathlib.parts outdir <> [] ->
      base = Pathlib.to_str outdir +:+ "/" +:+ label +:+ "_" +:+ timestamp)
  /\ (forall d1 d2, two_digit_fields d1 -> two_digit_fields d2 ->
      (strftime_Ymd_HMS d1 = strftime_Ymd_HMS d2 <-> to_the_second d1 = to_the_second d2)).
Proof.
  intros Hin. simpl.
  assert (Hl : no_slash label = true).
  { pose proof no_slash_labels as Hall. rewrite Forall_forall in Hall.
    apply (Hall (label, args)). by apply list_elem_of_In. }
  destruct (scan_name_plain label (clock w (ticks w)) Hl) as (Hn1 & Hn2 & Hn3).
  split; [|split].
  - rewrite run_scan_eq.
    unfold scan_events, scan_report, scan_rc, scan_cmd, scan_outbase, outbase_of, cmd_of.
    simpl fst. simpl snd. rewrite !Nat.add_0_r.
    rewrite (joinpath_name outdir _ Hn1 Hn2 Hn3), saved_msg_join. done.
  - intros Hne. destruct outdir as [a ps]. simpl in *. apply (to_str_child a ps _ Hne).
  - apply strftime_to_the_second.
Qed.

Lemma run_scan_output_paths_witness :
  run_scan "10.0.0.5" "udp_top100" "-sU --top-ports 100 -T3 -Pn" (outdir_of "10.0.0.5")
           (world_of [] [] (Some 0) (fun _ _ => 0))
  = (Ok tt,
     advance 1
       [ Stdout (nl +:+ "--- Running: udp_top100 ---");
         Stdout "Cmd: nmap -sU --top-ports 100 -T3 -Pn -oA results/10.0.0.5/udp_top100_20261104_090507 10.0.0.5";
         Sh "nmap -sU --top-ports 100 -T3 -Pn -oA results/10.0.0.5/udp_top100_20261104_090507 10.0.0.5";
         Stdout "[+] Saved outputs: results/10.0.0.5/udp_top100_20261104_090507.nmap, results/10.0.0.5/udp_top100_20261104_090507.xml, results/10.0.0.5/udp_top100_20261104_090507.gnmap" ]
       (world_of [] [] (Some 0) (fun _ _ => 0))).
Proof.
  apply (proj1 (run_scan_output_paths "udp_top100" "-sU --top-ports 100 -T3 -Pn" "10.0.0.5"
                  (outdir_of "10.0.0.5") (world_of [] [] (Some 0) (fun _ _ => 0))
                  ltac:(simpl; tauto))).
Defined.


(* ===================================================================== *)
(** ** The output directory *)
(* ===================================================================== *)













Lemma split_cons_form sep s : exists piece pieces, PyStr.split sep s = piece :: pieces.
Proof.
  induction s as [|c s (piece & pieces & IH)]; simpl; [by eauto|].
  destruct (Ascii.eqb c sep); [by eauto|]. rewrite IH. by eauto.
Qed.

Lemma join_cons sep p q rest :
  PyStr.join sep (p :: q :: rest) = p +:+ sep +:+ PyStr.join sep (q :: rest).
Proof. reflexivity. Qed.

(** Splitting at the slashes and joining with slashes gives the string back. *)
Lemma join_split s : PyStr.join "/" (PyStr.split "/" s) = s.
Proof.
  induction s as [|c s IH]; [done|]. simpl PyStr.split.
  destruct (split_cons_form "/" s) as (piece & pieces & Hsp). rewrite Hsp in *.
  destruct (Ascii.eqb_spec c "/") as [->|Hc].
  - rewrite join_cons, IH. done.
  - destruct pieces as [|q pieces].
    + simpl in *. by rewrite IH.
    + rewrite join_cons in *. rewrite str_app_cons. by rewrite IH.
Qed.

Lemma root_of_relative s :
  PyStr.starts_with "/" s = false -> Pathlib.root_of s = Pathlib.Relative.
Proof.
  unfold Pathlib.root_of. destruct s as [|c s]; [done|]. simpl.
  intros Hc. destruct c as [[] [] [] [] [] [] [] []]; try done.
Qed.








(* ===================================================================== *)
(** ** Runs that reach their end *)
(* ===================================================================== *)

(** When a target is obtained, [nmap] works, the output directory can be
    created and the input holds an answer to every question asked, [main]
    returns normally. *)
Lemma main_completes registry w target w1 d mode rest :
  get_target (emit (Stdout BANNER) w) = (Ok target, w1) ->
  nmap_version w = Some 0 ->
  Pathlib.mkdir true true (disk w1) (outdir_of target) = inr d ->
  stdin w1 = mode :: rest ->
  (PyStr.strip mode = "2" -> rest <> []) ->
  fst (main registry w) = Ok tt.
Proof.
  intros Ht Hv Hmk Hin Hrest. rewrite main_unfold, Ht.
  pose proof (get_target_talk _ _ _ Ht) as Htalk.
  unfold talk_only in Htalk. destruct_and!. simpl in *.
  rewrite check_nmap_ok by congruence. simpl. rewrite Hmk.
  set (w4 := emit _ (with_disk d _)).
  assert (Hin4 : stdin w4 = mode :: rest) by done.
  destruct (get_scans_to_run_by_mode registry mode rest w4 Hin4) as [Hall Hint].
  destruct (decide (PyStr.strip mode = "2")) as [Hm|Hm]; [|by rewrite (Hall Hm)].
  rewrite (Hint Hm).
  destruct rest as [|picks rest']; [by destruct (Hrest Hm)|].
  rewrite (interactive_choose_scans_eq registry picks rest') by done.
  rewrite choose_from_eq.
  destruct (means_all _); [done|]. by destruct (ints _ _).
Qed.


(* ===================================================================== *)
(** ** More about the selection *)
(* ===================================================================== *)

Lemma chosen_within registry idxs p :
  p ∈ chosen registry idxs -> p ∈ registry.
Proof.
  unfold chosen. rewrite list_elem_of_omap. intros (i & _ & Hi).
  destruct (in_range registry i); [|done]. by eapply list_elem_of_lookup_2.
Qed.

(** X1: whatever is typed, [interactive_choose_scans] returns profiles of
    the registry only, and at least one of them unless the registry is
    empty; it never fails on what was typed: the only exception that leaves
    it is [EOFError], when there is no line to read. *)
Theorem selection_within_registry (registry : list (string * string)) (w : World) :
  match fst (interactive_choose_scans registry w) with
  | Ok scans =>
      (forall p, p ∈ scans -> p ∈ registry) /\ (scans = [] -> registry = [])
  | Raise e => e = EOFError /\ stdin w = []
  end.
Proof.
  destruct (stdin w) as [|line rest] eqn:Hin.
  { by rewrite interactive_choose_scans_eof. }
  rewrite (interactive_choose_scans_eq _ _ _ _ Hin), choose_from_eq.
  destruct (means_all _); [done|].
  destruct (ints _ _) as [idxs|]; [|done]. simpl.
  destruct (chosen registry idxs) as [|p sel] eqn:Hc; [done|].
  split; [|done]. intros q Hq. apply (chosen_within registry idxs). by rewrite Hc.
Qed.

(** X2: one token that is not an integer voids the whole line of picks,
    however many valid indices stand beside it: the whole registry is
    returned and the warning is printed. *)
Theorem one_bad_token_voids_the_picks (registry : list (string * string))
        (line : string) (rest : list string) (w : World) :
  stdin w = line :: rest ->
  means_all (PyStr.lower (PyStr.strip line)) = false ->
  existsb (non_numeric (int_max_str_digits w))
          (tokens (PyStr.lower (PyStr.strip line))) = true ->
  interactive_choose_scans registry w
  = (Ok registry,
     emit (Stdout invalid_selection) (with_stdin rest (emits (menu registry) w))).
Proof.
  intros Hin Hall Hbad.
  rewrite (interactive_choose_scans_eq _ _ _ _ Hin), choose_from_eq, Hall.
  change (int_max_str_digits (with_stdin rest (emits (menu registry) w)))
    with (int_max_str_digits w).
  apply ints_non_numeric in Hbad. by rewrite Hbad.
Qed.

Lemma one_bad_token_voids_the_picks_witness :
  interactive_choose_scans SCANS
    (world_of ["nmap_auto_banner.py"; "10.0.0.5"] ["1,2,x3"] (Some 0) (fun _ _ => 0))
  = (Ok SCANS,
     emit (Stdout invalid_selection)
       (with_stdin [] (emits (menu SCANS)
          (world_of ["nmap_auto_banner.py"; "10.0.0.5"] ["1,2,x3"] (Some 0) (fun _ _ => 0))))).
Proof.
  apply (one_bad_token_voids_the_picks SCANS "1,2,x3" []
           (world_of ["nmap_auto_banner.py"; "10.0.0.5"] ["1,2,x3"] (Some 0) (fun _ _ => 0)));
    reflexivity.
Defined.

(** X3: the loop over the indices skips every index below 1 or above the
    length of the registry, wherever it stands: zero and negative numbers
    select nothing (a [-1] does not reach the last profile), and the loop
    never raises. *)
Theorem out_of_range_index_is_skipped (registry : list (string * string))
        (before after : list Z) (i : Z) (selected : list (string * string)) (w : World) :
  i < 1 \/ Z.of_nat (length registry) < i ->
  pick registry (before ++ i :: after) selected w
  = pick registry (before ++ after) selected w
  /\ exists scans, pick registry (before ++ after) selected w = (Ok scans, w).
Proof.
  intros Hi. rewrite !pick_chosen. split; [|by eauto].
  unfold chosen. rewrite !omap_app. simpl.
  assert (Hr : in_range registry i = false).
  { unfold in_range. apply andb_false_iff. rewrite !Z.leb_gt. lia. }
  by rewrite Hr.
Qed.

Lemma out_of_range_index_is_skipped_witness :
  pick SCANS ([2] ++ (-1) :: [3]) []
       (world_of ["nmap_auto_banner.py"; "10.0.0.5"] [] (Some 0) (fun _ _ => 0))
  = pick SCANS ([2] ++ [3]) []
         (world_of ["nmap_auto_banner.py"; "10.0.0.5"] [] (Some 0) (fun _ _ => 0)).
Proof.
  apply (out_of_range_index_is_skipped SCANS [2] [3] (-1)). lia.
Defined.


(* ===================================================================== *)
(** ** More about whole runs *)
(* ===================================================================== *)

Lemma says_more_refl w : says_more w w.
Proof. exists []. by rewrite app_nil_r. Qed.

Lemma says_more_trans w1 w2 w3 : says_more w1 w2 -> says_more w2 w3 -> says_more w1 w3.
Proof.
  intros (e1 & H1 & S1) (e2 & H2 & S2). exists (e1 ++ e2)%list.
  rewrite H2, H1, sh_cmds_app, S1, S2. by rewrite app_assoc.
Qed.

Lemma says_more_emits evs w : sh_cmds evs = [] -> says_more w (emits evs w).
Proof. intros H. by exists evs. Qed.

Lemma says_more_emit e w :
  match e with Sh _ => False | _ => True end -> says_more w (emit e w).
Proof. intros H. exists [e]. split; [done|]. by destruct e. Qed.

Lemma says_more_with_stdin l w : says_more w (with_stdin l w).
Proof. exists []. simpl. by rewrite app_nil_r. Qed.

Lemma says_more_with_disk d w : says_more w (with_disk d w).
Proof. exists []. simpl. by rewrite app_nil_r. Qed.

Local Ltac say :=
  repeat first
    [ apply says_more_refl
    | (eapply says_more_trans; [|apply says_more_with_stdin])
    | (eapply says_more_trans; [|apply says_more_with_disk])
    | (eapply says_more_trans; [|apply says_more_emit; exact I])
    | (eapply says_more_trans; [|apply says_more_emits; first [apply sh_cmds_menu|reflexivity]]) ].

Lemma get_target_says w r w1 : get_target w = (r, w1) -> says_more w w1.
Proof.
  destruct (argv_target (argv w)) as [a|] eqn:Ha.
  - rewrite (get_target_argv _ _ Ha). intros [= _ <-]. say.
  - rewrite (get_target_prompt _ Ha).
    destruct (stdin w) as [|line rest]; [intros [= _ <-]; say|].
    destruct (PyStr.truthy _); intros [= _ <-]; say.
Qed.

Lemma get_scans_to_run_says registry w r w' :
  get_scans_to_run registry w = (r, w') -> says_more w w'.
Proof.
  destruct (stdin w) as [|line rest] eqn:Hin.
  { unfold get_scans_to_run, bind. rewrite (choose_mode_eof _ Hin).
    intros [= _ <-]. say. }
  destruct (get_scans_to_run_by_mode registry line rest w Hin) as [Hall Hint].
  destruct (decide (PyStr.strip line = "2")) as [Hm|Hm].
  2:{ rewrite (Hall Hm). intros [= _ <-]. say. }
  rewrite (Hint Hm). clear Hall Hint.
  destruct rest as [|picks rest'].
  { rewrite interactive_choose_scans_eof by done. intros [= _ <-]. say. }
  rewrite (interactive_choose_scans_eq registry picks rest') by done.
  rewrite choose_from_eq.
  destruct (means_all _); [intros [= _ <-]; say|].
  destruct (ints _ _); intros [= _ <-]; say.
Qed.

(** X4: every run, also one that fails, starts by printing the banner. *)
Theorem banner_comes_first (registry : list (string * string)) (w : World) :
  exists evs, out (snd (main registry w)) = (out w ++ Stdout BANNER :: evs)%list.
Proof.
  assert (Hgoal : forall w',
            (exists evs, out w' = (out (emit (Stdout BANNER) w) ++ evs)%list) ->
            exists evs, out w' = (out w ++ Stdout BANNER :: evs)%list).
  { intros w' (evs & Hout). exists evs. rewrite Hout. simpl.
    by rewrite <- app_assoc. }
  assert (Hsay : forall w1 w', says_more w1 w' ->
            exists evs, out w' = (out w1 ++ evs)%list).
  { intros w1 w' (evs & Hout & _). by exists evs. }
  apply Hgoal. rewrite main_unfold.
  destruct (get_target _) as [[target|e] w1] eqn:Ht;
    pose proof (get_target_says _ _ _ Ht) as H1; [|by apply Hsay].
  destruct (decide (nmap_version w1 = Some 0)) as [Hv|Hv].
  2:{ rewrite check_nmap_fails by done. apply Hsay.
      eapply says_more_trans; [exact H1|say]. }
  rewrite check_nmap_ok by done.
  destruct (Pathlib.mkdir _ _ _ _) as [err|d].
  { apply Hsay. eapply says_more_trans; [exact H1|say]. }
  destruct (get_scans_to_run _ _) as [[scans|e] w5] eqn:Hs;
    pose proof (get_scans_to_run_says _ _ _ _ Hs) as H5.
  2:{ apply Hsay. eapply says_more_trans; [exact H1|].
      eapply says_more_trans; [|exact H5]. say. }
  destruct H1 as (e1 & Ho1 & S1). destruct H5 as (e5 & Ho5 & S5).
  simpl in *. eexists. rewrite Ho5, Ho1. rewrite <- !app_assoc. reflexivity.
Qed.

(** X5: the trace of a run that reaches its end is, after what was there
    before: the preamble (banner, target prompt if any, version query, line
    about the results directory, selection dialogue), then the line
    ["[i] Starting N scans for target: T"], then at once the events of the
    scans, then the three closing lines.  No shell command comes before that
    line, and [N] is the number of scan commands that come after it. *)
Theorem announced_count_is_run (registry : list (string * string)) (w : World) :
  fst (main registry w) = Ok tt ->
  exists target d scans,
    fst (get_target w) = Ok target
    /\ Pathlib.mkdir true true (disk w) (outdir_of target) = inr d
    /\ selected registry (int_max_str_digits w) (lines_after_target w) = Some scans
    /\ out (snd (main registry w))
       = (out w ++ preamble registry w target d
            ++ Stdout ("[i] Starting " +:+ PyStr.of_nat (length scans)
                       +:+ " scans for target: " +:+ target)
            :: batch_events w target (outdir_of target) 0 scans ++ closing)%list
    /\ sh_cmds (preamble registry w target d) = []
    /\ length (sh_cmds (batch_events w target (outdir_of target) 0 scans)) = length scans
    /\ sh_cmds closing = [].
Proof.
  intros Hok.
  destruct (main_ok_inv registry w Hok) as (target & d & scans & Ht & Hv & Hmk & Hsel).
  exists target, d, scans. split; [done|]. split; [done|]. split; [done|].
  split; [|split; [|split]].
  - rewrite (main_eq registry w target d scans Ht Hv Hmk Hsel). cbn [snd].
    apply out_after_run.
  - apply sh_cmds_preamble.
  - apply length_sh_cmds_batch.
  - reflexivity.
Qed.

Lemma announced_count_is_run_witness :
  exists target d scans,
    fst (get_target (world_of ["nmap_auto_banner.py"; "10.0.0.5"] ["2"; "7,7,1"]
                              (Some 0) (fun _ _ => 1))) = Ok target
    /\ Pathlib.mkdir true true
         (Pathlib.MkFS {[ ["home"] := Pathlib.Dir; ["job"; "home"] := Pathlib.Dir ]}
                       ["job"; "home"])
         (outdir_of target) = inr d
    /\ selected SCANS 4300 ["2"; "7,7,1"] = Some scans
    /\ out (snd (main SCANS (world_of ["nmap_auto_banner.py"; "10.0.0.5"] ["2"; "7,7,1"]
                                      (Some 0) (fun _ _ => 1))))
       = ([] ++ preamble SCANS (world_of ["nmap_auto_banner.py"; "10.0.0.5"] ["2"; "7,7,1"]
                                         (Some 0) (fun _ _ => 1)) target d
            ++ Stdout ("[i] Starting " +:+ PyStr.of_nat (length scans)
                       +:+ " scans for target: " +:+ target)
            :: batch_events (world_of ["nmap_auto_banner.py"; "10.0.0.5"] ["2"; "7,7,1"]
                                      (Some 0) (fun _ _ => 1))
                            target (outdir_of target) 0 scans ++ closing)%list
    /\ sh_cmds (preamble SCANS (world_of ["nmap_auto_banner.py"; "10.0.0.5"] ["2"; "7,7,1"]
                                         (Some 0) (fun _ _ => 1)) target d) = []
    /\ length (sh_cmds (batch_events (world_of ["nmap_auto_banner.py"; "10.0.0.5"]
                                                ["2"; "7,7,1"] (Some 0) (fun _ _ => 1))
                                      target (outdir_of target) 0 scans)) = length scans
    /\ sh_cmds closing = [].
Proof.
  apply (announced_count_is_run SCANS
           (world_of ["nmap_auto_banner.py"; "10.0.0.5"] ["2"; "7,7,1"]
                     (Some 0) (fun _ _ => 1))).
  vm_compute. reflexivity.
Defined.

(** X6: when the preflight check fails, or the target prompt is answered
    with a blank line, the run ends through [sys.exit(1)] before anything
    was created: the directory tree is as it was and the clock was not
    read. *)
Theorem nothing_created_before_preflight (registry : list (string * string)) (w : World) :
  nmap_version w <> Some 0 \/ prompt_empty w ->
  fst (main registry w) <> Ok tt
  /\ disk (snd (main registry w)) = disk w
  /\ ticks (snd (main registry w)) = ticks w.
Proof.
  intros Hcase. rewrite main_unfold.
  pose proof (get_target_fst_emit w (Stdout BANNER)) as Hsame.
  destruct (get_target (emit (Stdout BANNER) w)) as [[target|e] w1] eqn:Ht;
    pose proof (get_target_talk _ _ _ Ht) as Htalk;
    unfold talk_only in Htalk; destruct_and!; simpl in *; [|done].
  assert (Hv : nmap_version w1 <> Some 0).
  { destruct Hcase as [Hv|[Ha (line & rest & Hin & Hs)]]; [congruence|].
    exfalso. rewrite (get_target_prompt _ Ha), Hin, Hs in Hsame. done. }
  rewrite check_nmap_fails by done. done.
Qed.

Lemma nothing_created_before_preflight_witness :
  fst (main SCANS (world_of ["nmap_auto_banner.py"] ["   "; "1"] (Some 0) (fun _ _ => 0)))
  <> Ok tt
  /\ disk (snd (main SCANS
        (world_of ["nmap_auto_banner.py"] ["   "; "1"] (Some 0) (fun _ _ => 0))))
     = disk (world_of ["nmap_auto_banner.py"] ["   "; "1"] (Some 0) (fun _ _ => 0))
  /\ ticks (snd (main SCANS
        (world_of ["nmap_auto_banner.py"] ["   "; "1"] (Some 0) (fun _ _ => 0))))
     = ticks (world_of ["nmap_auto_banner.py"] ["   "; "1"] (Some 0) (fun _ _ => 0)).
Proof.
  apply (nothing_created_before_preflight SCANS
           (world_of ["nmap_auto_banner.py"] ["   "; "1"] (Some 0) (fun _ _ => 0))).
  right. split; [reflexivity|]. exists "   ", ["1"]. split; reflexivity.
Defined.

(** X7: when the input ends at the mode prompt, or at the prompt for the
    picks, the run ends in a traceback ([EOFError], exit status 1) without
    having run a scan, but the output directory has been created by then. *)
Theorem input_exhausted_after_mkdir (registry : list (string * string)) (w : World)
        (target : string) (w1 : World) (d : Pathlib.FS) :
  get_target (emit (Stdout BANNER) w) = (Ok target, w1) ->
  nmap_version w = Some 0 ->
  Pathlib.mkdir true true (disk w) (outdir_of target) = inr d ->
  stdin w1 = [] \/ (exists mode, stdin w1 = [mode] /\ PyStr.strip mode = "2") ->
  fst (main registry w) = Raise EOFError
  /\ exit_status (fst (main registry w)) = 1
  /\ disk (snd (main registry w)) = d
  /\ sh_cmds (out (snd (main registry w))) = sh_cmds (out w).
Proof.
  intros Ht Hv Hmk Hin. rewrite main_unfold, Ht.
  pose proof (get_target_talk _ _ _ Ht) as Htalk.
  unfold talk_only in Htalk. destruct_and!. simpl in *.
  assert (Hw1 : sh_cmds (out w1) = sh_cmds (out w)).
  { match goal with H : sh_cmds (out w1) = _ |- _ => rewrite H end.
    rewrite sh_cmds_app. simpl. by rewrite app_nil_r. }
  rewrite check_nmap_ok by congruence. simpl.
  replace (disk w1) with (disk w) by done. rewrite Hmk.
  set (w4 := emit _ (with_disk d _)).
  destruct Hin as [Hin|(mode & Hin & Hm)].
  - unfold get_scans_to_run, bind. rewrite choose_mode_eof by done.
    simpl. rewrite !sh_cmds_app. simpl. by rewrite !app_nil_r.
  - destruct (get_scans_to_run_by_mode registry mode [] w4 Hin) as [_ Hint].
    rewrite (Hint Hm), interactive_choose_scans_eof by done.
    simpl. rewrite !sh_cmds_app, sh_cmds_menu. simpl. by rewrite !app_nil_r.
Qed.

Lemma input_exhausted_after_mkdir_witness :
  fst (main SCANS (world_of ["nmap_auto_banner.py"] ["10.0.0.5"; "2"] (Some 0) (fun _ _ => 0)))
  = Raise EOFError
  /\ Pathlib.is_dir
       (disk (snd (main SCANS
          (world_of ["nmap_auto_banner.py"] ["10.0.0.5"; "2"] (Some 0) (fun _ _ => 0)))))
       (outdir_of "10.0.0.5") = true.
Proof.
  pose proof (input_exhausted_after_mkdir SCANS
    (world_of ["nmap_auto_banner.py"] ["10.0.0.5"; "2"] (Some 0) (fun _ _ => 0))
    "10.0.0.5" _ _ eq_refl eq_refl eq_refl
    (or_intror (ex_intro _ "2" (conj eq_refl eq_refl)))) as (Hr & _ & Hd & _).
  split; [exact Hr|]. rewrite Hd. vm_compute. reflexivity.
Defined.

(** X8: a run in mode "all" (any answer to the mode prompt but ["2"]), with
    a target, a working [nmap] and an output directory that can be created,
    reads no further input, runs one command per profile of the registry,
    in registry order, the [k]-th of them stamped with the [k]-th reading
    of the clock, and returns normally whatever the exit statuses of these
    commands are. *)
Theorem all_mode_run (registry : list (string * string)) (w : World)
        (target : string) (w1 : World) (d : Pathlib.FS) (mode : string) (rest : list string) :
  get_target (emit (Stdout BANNER) w) = (Ok target, w1) ->
  nmap_version w = Some 0 ->
  Pathlib.mkdir true true (disk w) (outdir_of target) = inr d ->
  stdin w1 = mode :: rest ->
  PyStr.strip mode <> "2" ->
  fst (main registry w) = Ok tt
  /\ sh_cmds (out (snd (main registry w)))
     = (sh_cmds (out w) ++ imap (scan_cmd w target (outdir_of target)) registry)%list
  /\ stdin (snd (main registry w)) = rest
  /\ disk (snd (main registry w)) = d
  /\ ticks (snd (main registry w)) = (ticks w + length registry)%nat.
Proof.
  intros Ht Hv Hmk Hin Hm. rewrite main_unfold, Ht.
  pose proof (get_target_talk _ _ _ Ht) as Htalk.
  unfold talk_only in Htalk. destruct_and!. simpl in *.
  assert (Hw1 : sh_cmds (out w1) = sh_cmds (out w)).
  { match goal with H : sh_cmds (out w1) = _ |- _ => rewrite H end.
    rewrite sh_cmds_app. simpl. by rewrite app_nil_r. }
  rewrite check_nmap_ok by congruence. simpl.
  replace (disk w1) with (disk w) by done. rewrite Hmk.
  set (w4 := emit _ (with_disk d _)).
  destruct (get_scans_to_run_by_mode registry mode rest w4 Hin) as [Hall _].
  rewrite (Hall Hm). simpl.
  repeat split; [|congruence].
  rewrite !sh_cmds_app, sh_cmds_batch. simpl. rewrite !app_nil_r, Hw1. f_equal.
  apply imap_ext. intros k p _. simpl.
  apply scan_cmd_same_time; simpl; congruence.
Qed.

Lemma all_mode_run_witness :
  fst (main SCANS (world_of ["nmap_auto_banner.py"] ["10.0.0.5"; ""; "left"] (Some 0)
                            (fun k _ => Z.of_nat k)))
  = Ok tt
  /\ length (sh_cmds (out (snd (main SCANS
        (world_of ["nmap_auto_banner.py"] ["10.0.0.5"; ""; "left"] (Some 0)
                  (fun k _ => Z.of_nat k))))))
     = 7%nat
  /\ stdin (snd (main SCANS
        (world_of ["nmap_auto_banner.py"] ["10.0.0.5"; ""; "left"] (Some 0)
                  (fun k _ => Z.of_nat k))))
     = ["left"].
Proof.
  pose proof (all_mode_run SCANS
    (world_of ["nmap_auto_banner.py"] ["10.0.0.5"; ""; "left"] (Some 0)
              (fun k _ => Z.of_nat k))
    "10.0.0.5" _ _ "" ["left"] eq_refl eq_refl eq_refl eq_refl
    ltac:(discriminate)) as (Hr & Hc & Hs & _).
  split; [exact Hr|]. split; [|exact Hs].
  rewrite Hc. reflexivity.
Defined.


(* ===================================================================== *)
(** ** More about the output directory *)
(* ===================================================================== *)


Lemma outdir_of_relative target :
  PyStr.starts_with "/" target = false ->
  outdir_of target
  = Pathlib.MkPath Pathlib.Relative
      ("results" :: List.filter Pathlib.keep_part (PyStr.split "/" target)).
Proof.
  intros Hrel. unfold outdir_of, Pathlib.joinpath.
  change (Pathlib.anchor (Pathlib.parse target)) with (Pathlib.root_of target).
  by rewrite (root_of_relative _ Hrel).
Qed.


Lemma has_nul_app a b : PyStr.has_nul (a +:+ b) = PyStr.has_nul a || PyStr.has_nul b.
Proof.
  induction a as [|c a IH]; [by rewrite str_app_nil_l|].
  rewrite str_app_cons. cbn [PyStr.has_nul]. by rewrite IH, orb_assoc.
Qed.

Lemma byte_length_app a b :
  PyStr.byte_length (a +:+ b) = (PyStr.byte_length a + PyStr.byte_length b)%nat.
Proof.
  induction a as [|c a IH]; [by rewrite str_app_nil_l|].
  rewrite str_app_cons. cbn [PyStr.byte_length]. rewrite IH. lia.
Qed.

Lemma join_cons_cases sep p rest :
  PyStr.join sep (p :: rest)
  = match rest with [] => p | _ => p +:+ sep +:+ PyStr.join sep rest end.
Proof. by destruct rest. Qed.

Lemma has_nul_join sep l :
  PyStr.has_nul sep = false ->
  Forall (fun x => PyStr.has_nul x = false) l ->
  PyStr.has_nul (PyStr.join sep l) = false.
Proof.
  intros Hsep. induction 1 as [|p l Hp Hl IH]; [done|].
  rewrite join_cons_cases. destruct l as [|q l]; [done|].
  by rewrite !has_nul_app, Hp, Hsep, IH.
Qed.

Lemma has_nul_split sep s :
  PyStr.has_nul s = false ->
  Forall (fun x => PyStr.has_nul x = false) (PyStr.split sep s).
Proof.
  induction s as [|c s IH]; cbn [PyStr.split PyStr.has_nul]; [by repeat constructor|].
  intros H. apply orb_false_elim in H as [Hc Hs]. specialize (IH Hs).
  destruct (Ascii.eqb c sep); [by constructor|].
  destruct (PyStr.split sep s) as [|piece pieces].
  - repeat constructor. cbn [PyStr.has_nul]. by rewrite Hc.
  - apply Forall_cons in IH as [H1 H2]. constructor; [|done].
    cbn [PyStr.has_nul]. by rewrite Hc, H1.
Qed.

Lemma Forall_list_filter {A} (P : A -> Prop) (f : A -> bool) l :
  Forall P l -> Forall P (List.filter f l).
Proof.
  induction 1 as [|x l Hx Hl IH]; cbn [List.filter]; [done|].
  destruct (f x); [by constructor|done].
Qed.

Lemma byte_length_join_tail sep p rest :
  (PyStr.byte_length (PyStr.join sep rest)
   <= PyStr.byte_length (PyStr.join sep (p :: rest)))%nat.
Proof.
  rewrite (join_cons_cases sep p rest). destruct rest as [|q rest]; [cbn; lia|].
  rewrite !byte_length_app. lia.
Qed.

(** Leaving pieces out does not make the joined string longer. *)
Lemma byte_length_join_filter sep f l :
  (PyStr.byte_length (PyStr.join sep (List.filter f l))
   <= PyStr.byte_length (PyStr.join sep l))%nat.
Proof.
  induction l as [|p l IH]; [done|]. cbn [List.filter].
  destruct (f p).
  - rewrite (join_cons_cases sep p l), (join_cons_cases sep p (List.filter f l)).
    destruct (List.filter f l) as [|q fl] eqn:E.
    + destruct l; rewrite ?byte_length_app; lia.
    + destruct l as [|q' l']; [done|]. rewrite !byte_length_app. lia.
  - etrans; [exact IH|]. apply byte_length_join_tail.
Qed.

(** The path [results/<target>] of a target that is not rooted is one that
    the system takes: no NUL in it when there is none in the target, and
    shorter than [PATH_MAX] when the target is short enough. *)
Lemma path_error_outdir target :
  PyStr.starts_with "/" target = false ->
  PyStr.has_nul target = false ->
  (8 + PyStr.byte_length target < Pathlib.PATH_MAX)%nat ->
  Pathlib.path_error (outdir_of target) = None.
Proof.
  intros Hrel Hnul Hlen. rewrite (outdir_of_relative _ Hrel).
  set (ps := List.filter Pathlib.keep_part (PyStr.split "/" target)).
  assert (Hps : Forall (fun x => PyStr.has_nul x = false) ps).
  { apply Forall_list_filter. by apply has_nul_split. }
  assert (Hle : (PyStr.byte_length (PyStr.join "/" ps) <= PyStr.byte_length target)%nat).
  { unfold ps. etrans; [apply byte_length_join_filter|]. by rewrite join_split. }
  unfold Pathlib.path_error, Pathlib.to_str.
  cbn [Pathlib.anchor Pathlib.parts Pathlib.root_str]. rewrite str_app_nil_l.
  rewrite has_nul_join; [|done|by constructor].
  rewrite (join_cons_cases "/" "results" ps).
  destruct (Nat.leb_spec Pathlib.PATH_MAX
              (PyStr.byte_length
                 match ps with [] => "results" | _ => "results" +:+ "/" +:+ PyStr.join "/" ps end))
    as [Hbig|_]; [|done].
  exfalso. destruct ps as [|q ps'].
  - unfold Pathlib.PATH_MAX in *.
    change (PyStr.byte_length "results") with 7%nat in Hbig. lia.
  - rewrite !byte_length_app in Hbig. unfold Pathlib.PATH_MAX in *.
    change (PyStr.byte_length "results") with 7%nat in Hbig.
    change (PyStr.byte_length "/") with 1%nat in Hbig. lia.
Qed.



Lemma mkdir_parents_fails a rparts d e :
  Pathlib.os_mkdir d (Pathlib.MkPath a (rev rparts)) = inl e ->
  e <> Pathlib.ENOENT ->
  Pathlib.is_dir d (Pathlib.MkPath a (rev rparts)) = false ->
  Pathlib.mkdir_parents true d a rparts = inl e.
Proof.
  intros Hos He Hd.
  destruct rparts as [|x up]; cbn [Pathlib.mkdir_parents]; rewrite Hos;
    destruct e; try done; cbn [andb]; by rewrite Hd.
Qed.

(** When [results] is a regular file, no output directory can be created
    under it. *)
Lemma mkdir_under_a_file target d :
  PyStr.starts_with "/" target = false ->
  Pathlib.path_error (outdir_of target) = None ->
  Pathlib.kind_at d (Pathlib.cwd d) = Some Pathlib.Dir ->
  Pathlib.kind_at d ("results" :: Pathlib.cwd d) = Some Pathlib.File ->
  Pathlib.mkdir true true d (outdir_of target) = inl Pathlib.EEXIST
  \/ Pathlib.mkdir true true d (outdir_of target) = inl Pathlib.ENOTDIR.
Proof.
  intros Hrel Hpe Hcwd Hres. rewrite (outdir_of_relative _ Hrel) in *.
  set (ps := List.filter Pathlib.keep_part (PyStr.split "/" target)) in *.
  unfold Pathlib.mkdir. cbn [Pathlib.anchor Pathlib.parts].
  assert (Hloc : Pathlib.locate d (Pathlib.MkPath Pathlib.Relative ("results" :: ps))
                 = match ps with
                   | [] => inr ("results" :: Pathlib.cwd d)
                   | _ => inl Pathlib.ENOTDIR
                   end).
  { unfold Pathlib.locate. rewrite Hpe.
    cbn [Pathlib.start Pathlib.anchor Pathlib.parts Pathlib.walk].
    rewrite Hcwd.
    change (Pathlib.NAME_MAX <? PyStr.byte_length "results")%nat with false. cbv iota.
    change (Pathlib.step (Pathlib.cwd d) "results") with ("results" :: Pathlib.cwd d).
    destruct ps as [|c r]; [done|]. cbn [Pathlib.walk]. by rewrite Hres. }
  assert (Hrev : rev (rev ("results" :: ps)) = "results" :: ps) by apply rev_involutive.
  destruct ps as [|c r].
  - left. apply mkdir_parents_fails; rewrite ?Hrev; [|done|].
    + unfold Pathlib.os_mkdir. by rewrite Hloc, Hres.
    + unfold Pathlib.is_dir. by rewrite Hloc, Hres.
  - right. apply mkdir_parents_fails; rewrite ?Hrev; [|done|].
    + unfold Pathlib.os_mkdir. by rewrite Hloc.
    + unfold Pathlib.is_dir. by rewrite Hloc.
Qed.

(** X10: when the working directory holds a regular file named [results],
    a run with a target that does not begin with a slash, has no NUL and is
    short enough for [results/<target>] to stay below [PATH_MAX], cannot
    create its output directory: it ends in a traceback ([FileExistsError]
    or [NotADirectoryError], exit status 1) after the preflight check,
    without running a scan or asking for the mode, and leaves the directory
    tree as it was.  (The working directory can be searched: the model has
    no permissions.) *)
Theorem results_file_stops_the_run (registry : list (string * string)) (w : World)
        (target : string) (w1 : World) :
  get_target (emit (Stdout BANNER) w) = (Ok target, w1) ->
  PyStr.starts_with "/" target = false ->
  PyStr.has_nul target = false ->
  (8 + PyStr.byte_length target < Pathlib.PATH_MAX)%nat ->
  nmap_version w = Some 0 ->
  Pathlib.kind_at (disk w) (Pathlib.cwd (disk w)) = Some Pathlib.Dir ->
  Pathlib.kind_at (disk w) ("results" :: Pathlib.cwd (disk w)) = Some Pathlib.File ->
  (main registry w = (Raise FileExistsError, emit (Exec ["nmap"; "-V"]) w1)
   \/ main registry w = (Raise NotADirectoryError, emit (Exec ["nmap"; "-V"]) w1))
  /\ exit_status (fst (main registry w)) = 1
  /\ stdin (snd (main registry w)) = stdin w1
  /\ disk (snd (main registry w)) = disk w
  /\ sh_cmds (out (snd (main registry w))) = sh_cmds (out w).
Proof.
  intros Ht Hrel Hnul Hlen Hv Hcwd Hres. rewrite main_unfold, Ht.
  pose proof (path_error_outdir target Hrel Hnul Hlen) as Hpe.
  pose proof (get_target_talk _ _ _ Ht) as Htalk.
  unfold talk_only in Htalk. destruct_and!. simpl in *.
  assert (Hw1 : sh_cmds (out w1) = sh_cmds (out w)).
  { match goal with H : sh_cmds (out w1) = _ |- _ => rewrite H end.
    rewrite sh_cmds_app. simpl. by rewrite app_nil_r. }
  rewrite check_nmap_ok by congruence. simpl.
  replace (disk w1) with (disk w) by done.
  destruct (mkdir_under_a_file target (disk w) Hrel Hpe Hcwd Hres) as [Hmk|Hmk];
    rewrite Hmk; simpl; rewrite sh_cmds_app; simpl; rewrite app_nil_r;
    (split; [by eauto|done]).
Qed.

Lemma results_file_stops_the_run_witness :
  exit_status (fst (main SCANS
    (MkWorld ["nmap_auto_banner.py"; "10.0.0.5"] ["1"] (Some 0) (fun _ _ => 0) a_clock 4300
       (Pathlib.MkFS {[ ["home"] := Pathlib.Dir; ["job"; "home"] := Pathlib.Dir;
                        ["results"; "job"; "home"] := Pathlib.File ]} ["job"; "home"])
       0 0 []))) = 1
  /\ stdin (snd (main SCANS
    (MkWorld ["nmap_auto_banner.py"; "10.0.0.5"] ["1"] (Some 0) (fun _ _ => 0) a_clock 4300
       (Pathlib.MkFS {[ ["home"] := Pathlib.Dir; ["job"; "home"] := Pathlib.Dir;
                        ["results"; "job"; "home"] := Pathlib.File ]} ["job"; "home"])
       0 0 []))) = ["1"].
Proof.
  pose proof (results_file_stops_the_run SCANS
    (MkWorld ["nmap_auto_banner.py"; "10.0.0.5"] ["1"] (Some 0) (fun _ _ => 0) a_clock 4300
       (Pathlib.MkFS {[ ["home"] := Pathlib.Dir; ["job"; "home"] := Pathlib.Dir;
                        ["results"; "job"; "home"] := Pathlib.File ]} ["job"; "home"])
       0 0 [])
    "10.0.0.5" _ eq_refl eq_refl eq_refl ltac:(vm_compute; lia) eq_refl eq_refl eq_refl)
    as (_ & He & Hs & _).
  split; [exact He|exact Hs].
Defined.


(* ===================================================================== *)
(** ** More about the names of the output files *)
(* ===================================================================== *)

Lemma year_facts :
  forallb (fun y => (String.length (PyStr.of_nat y) =? 4)%nat)
          (seq 1000 (Z.to_nat 9000)) = true.
Proof. vm_compute. reflexivity. Qed.

Lemma length_strftime d :
  clock_datetime d -> String.length (strftime_Ymd_HMS d) = 15%nat.
Proof.
  intros [Hy (Hmo & Hda & Hh & Hmi & Hs)]. unfold strftime_Ymd_HMS.
  rewrite !str_length_app, !length_pad2 by done.
  pose proof year_facts as H. rewrite forallb_forall in H.
  specialize (H (year d)). rewrite in_seq in H.
  rewrite (proj1 (Nat.eqb_eq _ _) (H ltac:(lia))). done.
Qed.

(** [<label>_<timestamp>] tells the label and the timestamp apart. *)
Lemma scan_name_inj l1 l2 d1 d2 :
  clock_datetime d1 -> clock_datetime d2 ->
  l1 +:+ "_" +:+ strftime_Ymd_HMS d1 = l2 +:+ "_" +:+ strftime_Ymd_HMS d2 ->
  l1 = l2 /\ to_the_second d1 = to_the_second d2.
Proof.
  intros H1 H2 Heq.
  rewrite <- !str_app_assoc in Heq.
  apply str_app_inj_r in Heq as [Hl Hts]; [|by rewrite !length_strftime].
  apply (str_app_inj_r l1 l2 "_" "_") in Hl as [Hl _]; [|done].
  split; [done|]. by apply strftime_to_the_second; [apply H1|apply H2|].
Qed.

Lemma to_str_last a ps :
  exists pre, forall x, x <> "" ->
    Pathlib.to_str (Pathlib.MkPath a (ps ++ [x])) = pre +:+ x.
Proof.
  destruct ps as [|p ps].
  - exists (Pathlib.root_str a). intros x Hx. unfold Pathlib.to_str. simpl.
    by destruct a.
  - exists (Pathlib.to_str (Pathlib.MkPath a (p :: ps)) +:+ "/"). intros x _.
    rewrite to_str_child by done. by rewrite str_app_assoc.
Qed.

(** X11: inside one output directory, two scans get the same output base
    exactly when they have the same label and start within the same second
    (labels without a slash, as all those of the registry are); the same
    holds for the base as it is written in the command. *)
Theorem same_outbase_iff (outdir : Pathlib.Path) (l1 l2 : string) (d1 d2 : datetime) :
  no_slash l1 = true -> no_slash l2 = true ->
  clock_datetime d1 -> clock_datetime d2 ->
  (outbase_of outdir l1 (strftime_Ymd_HMS d1) = outbase_of outdir l2 (strftime_Ymd_HMS d2)
   <-> l1 = l2 /\ to_the_second d1 = to_the_second d2)
  /\ (Pathlib.to_str (outbase_of outdir l1 (strftime_Ymd_HMS d1))
      = Pathlib.to_str (outbase_of outdir l2 (strftime_Ymd_HMS d2))
      <-> l1 = l2 /\ to_the_second d1 = to_the_second d2).
Proof.
  intros Hl1 Hl2 Hd1 Hd2.
  destruct (scan_name_plain l1 d1 Hl1) as (Ha1 & Hb1 & Hc1).
  destruct (scan_name_plain l2 d2 Hl2) as (Ha2 & Hb2 & Hc2).
  unfold outbase_of. rewrite !joinpath_name by done.
  assert (Hback : l1 = l2 /\ to_the_second d1 = to_the_second d2 ->
                  l1 +:+ "_" +:+ strftime_Ymd_HMS d1 = l2 +:+ "_" +:+ strftime_Ymd_HMS d2).
  { intros [-> Hs]. f_equal. f_equal.
    by apply (strftime_to_the_second d1 d2); [apply Hd1|apply Hd2|]. }
  split; split.
  - intros [= Heq]. apply app_inj_tail in Heq as [_ Heq].
    by apply scan_name_inj.
  - intros H. by rewrite (Hback H).
  - destruct (to_str_last (Pathlib.anchor outdir) (Pathlib.parts outdir)) as [pre Hpre].
    rewrite !Hpre by done. intros Heq. apply (inj (String.app pre)) in Heq.
    by apply scan_name_inj.
  - intros H. by rewrite (Hback H).
Qed.

Lemma same_outbase_iff_witness :
  outbase_of (outdir_of "10.0.0.5") "udp_top100" (strftime_Ymd_HMS (a_clock 0))
  = outbase_of (outdir_of "10.0.0.5") "udp_top100"
               (strftime_Ymd_HMS (MkDatetime 2026 11 4 9 5 7 999))
  <-> "udp_top100" = "udp_top100"
      /\ to_the_second (a_clock 0) = to_the_second (MkDatetime 2026 11 4 9 5 7 999).
Proof.
  apply (same_outbase_iff (outdir_of "10.0.0.5") "udp_top100" "udp_top100"
           (a_clock 0) (MkDatetime 2026 11 4 9 5 7 999));
    try reflexivity; (split; [simpl; lia|unfold two_digit_fields; simpl; lia]).
Defined.

(** X12: when the labels of the registry are pairwise different (and have
    no slash), the scans of a run in mode "all" all get different output
    bases, even when several of them start within the same second: no scan
    overwrites the files of another. *)
Theorem registry_scans_never_share_a_base (registry : list (string * string))
        (w : World) (outdir : Pathlib.Path) :
  NoDup (map fst registry) ->
  Forall (fun p => no_slash (fst p) = true) registry ->
  (forall k, clock_datetime (clock w k)) ->
  NoDup (imap (fun k p => Pathlib.to_str (scan_outbase w outdir k p)) registry).
Proof.
  intros Hnd Hns Hclock. apply NoDup_alt. intros i j b Hi Hj.
  rewrite list_lookup_imap in Hi, Hj.
  destruct (registry !! i) as [p|] eqn:Hpi; [|done].
  destruct (registry !! j) as [q|] eqn:Hpj; [|done].
  simpl in Hi, Hj. injection Hi as Hi. injection Hj as Hj.
  rewrite Forall_forall in Hns.
  pose proof (Hns p (list_elem_of_lookup_2 _ _ _ Hpi)) as Hp.
  pose proof (Hns q (list_elem_of_lookup_2 _ _ _ Hpj)) as Hq.
  destruct (scan_name_plain (fst p) (clock w (ticks w + i)) Hp) as (Ha1 & Hb1 & Hc1).
  destruct (scan_name_plain (fst q) (clock w (ticks w + j)) Hq) as (Ha2 & Hb2 & Hc2).
  unfold scan_outbase, outbase_of in Hi, Hj.
  rewrite joinpath_name in Hi, Hj by done.
  destruct (to_str_last (Pathlib.anchor outdir) (Pathlib.parts outdir)) as [pre Hpre].
  rewrite Hpre in Hi, Hj by done. rewrite <- Hj in Hi.
  apply (inj (String.app pre)) in Hi.
  apply scan_name_inj in Hi as [Hl _]; [|done|done].
  apply (NoDup_alt (map fst registry)) with (x := fst p); [done| |].
  - by rewrite list_lookup_fmap, Hpi.
  - by rewrite list_lookup_fmap, Hpj, Hl.
Qed.

Lemma registry_scans_never_share_a_base_witness :
  NoDup (imap (fun k p => Pathlib.to_str
                 (scan_outbase
                    (MkWorld [] [] (Some 0) (fun _ _ => 0)
                       (fun _ => MkDatetime 2026 11 4 9 5 7 0) 4300
                       (Pathlib.MkFS ∅ []) 0 0 [])
                    (outdir_of "10.0.0.5") k p)) SCANS).
Proof.
  apply (registry_scans_never_share_a_base SCANS
           (MkWorld [] [] (Some 0) (fun _ _ => 0)
              (fun _ => MkDatetime 2026 11 4 9 5 7 0) 4300
              (Pathlib.MkFS ∅ []) 0 0 [])
           (outdir_of "10.0.0.5")).
  - apply (bool_decide_eq_true_1 _). vm_compute. reflexivity.
  - repeat constructor.
  - intros k. split; [simpl; lia|]. unfold two_digit_fields. simpl.
    repeat split; lia.
Defined.


(* ===================================================================== *)
(** ** More about what the user types *)
(* ===================================================================== *)

Lemma rstrip_idem s : PyStr.rstrip (PyStr.rstrip s) = PyStr.rstrip s.
Proof.
  induction s as [|c s IH]; [done|]. simpl.
  destruct (PyStr.rstrip s) as [|c' r'] eqn:E.
  - destruct (PyStr.isspace c) eqn:Hc; [done|]. simpl. by rewrite Hc.
  - simpl. simpl in IH. by rewrite IH.
Qed.

Lemma lstrip_head s :
  PyStr.lstrip s = ""
  \/ exists c r, PyStr.lstrip s = String c r /\ PyStr.isspace c = false.
Proof.
  induction s as [|c s IH]; [by left|]. simpl.
  destruct (PyStr.isspace c) eqn:Hc; [done|]. right. by exists c, s.
Qed.

Lemma rstrip_head c r :
  PyStr.isspace c = false ->
  exists r', PyStr.rstrip (String c r) = String c r'.
Proof.
  intros Hc. simpl. destruct (PyStr.rstrip r); [|by eauto].
  rewrite Hc. by eauto.
Qed.

(** Stripping a stripped string changes nothing. *)
Lemma strip_strip s : PyStr.strip (PyStr.strip s) = PyStr.strip s.
Proof.
  unfold PyStr.strip.
  destruct (lstrip_head s) as [->|(c & r & -> & Hc)]; [done|].
  destruct (rstrip_head c r Hc) as [r' Hr]. rewrite Hr.
  simpl PyStr.lstrip. rewrite Hc. rewrite <- Hr. apply rstrip_idem.
Qed.

(** X13: the target that [main] goes on with never has a blank at either
    end, and when it was typed at the prompt it is not empty. *)
Theorem target_is_stripped (w : World) (target : string) (w' : World) :
  get_target w = (Ok target, w') ->
  PyStr.strip target = target
  /\ (argv_target (argv w) = None -> target <> "").
Proof.
  destruct (argv_target (argv w)) as [a|] eqn:Ha.
  - rewrite (get_target_argv _ _ Ha). intros [= <- _]. split; [apply strip_strip|done].
  - rewrite (get_target_prompt _ Ha).
    destruct (stdin w) as [|line rest]; [done|].
    destruct (PyStr.truthy (PyStr.strip line)) eqn:Ht; [|done].
    intros [= <- _]. split; [apply strip_strip|]. intros _.
    by destruct (PyStr.strip line).
Qed.

Lemma target_is_stripped_witness :
  PyStr.strip "scanme.nmap.org" = "scanme.nmap.org"
  /\ (argv_target (argv (world_of ["nmap_auto_banner.py"] ["  scanme.nmap.org "; "1"]
                                   (Some 0) (fun _ _ => 0))) = None ->
      "scanme.nmap.org" <> "").
Proof.
  apply (target_is_stripped
           (world_of ["nmap_auto_banner.py"] ["  scanme.nmap.org "; "1"] (Some 0) (fun _ _ => 0))
           "scanme.nmap.org"
           (with_stdin ["1"] (emit (Prompt target_prompt)
              (world_of ["nmap_auto_banner.py"] ["  scanme.nmap.org "; "1"]
                        (Some 0) (fun _ _ => 0))))).
  reflexivity.
Defined.

(** *** Typing the number that the menu shows *)

Lemma digit_facts c :
  PyStr.is_digit c = true ->
  PyStr.isspace c = false /\ PyStr.lower_char c = c /\ Ascii.eqb c "," = false.
Proof. destruct c as [[] [] [] [] [] [] [] []]; by intros [=]. Qed.

Lemma all_digits_uint d : all_digits (NilEmpty.string_of_uint d) = true.
Proof. induction d; simpl; done. Qed.

Lemma of_nat_all_digits n : all_digits (PyStr.of_nat n) = true /\ PyStr.of_nat n <> "".
Proof.
  unfold PyStr.of_nat, NilZero.string_of_uint.
  destruct (Nat.to_uint n) eqn:E; try done; rewrite <- E;
    (split; [apply all_digits_uint|]); rewrite E; done.
Qed.

Lemma rstrip_digits s : all_digits s = true -> PyStr.rstrip s = s.
Proof.
  induction s as [|c s IH]; [done|]. simpl. intros H.
  apply andb_prop in H as [Hc Hs]. rewrite (IH Hs).
  destruct s; [|done]. by rewrite (proj1 (digit_facts c Hc)).
Qed.

Lemma strip_digits s : all_digits s = true -> PyStr.strip s = s.
Proof.
  intros H. unfold PyStr.strip.
  assert (Hl : PyStr.lstrip s = s).
  { destruct s as [|c s]; [done|]. simpl in *. apply andb_prop in H as [Hc _].
    by rewrite (proj1 (digit_facts c Hc)). }
  rewrite Hl. by apply rstrip_digits.
Qed.

Lemma lower_digits s : all_digits s = true -> PyStr.lower s = s.
Proof.
  induction s as [|c s IH]; [done|]. simpl. intros H.
  apply andb_prop in H as [Hc Hs].
  by rewrite (IH Hs), (proj1 (proj2 (digit_facts c Hc))).
Qed.

Lemma split_digits s : all_digits s = true -> PyStr.split "," s = [s].
Proof.
  induction s as [|c s IH]; [done|]. simpl. intros H.
  apply andb_prop in H as [Hc Hs].
  by rewrite (IH Hs), (proj2 (proj2 (digit_facts c Hc))).
Qed.

Lemma tokens_digits s : all_digits s = true -> s <> "" -> tokens s = [s].
Proof.
  intros H Hne. unfold tokens. rewrite (split_digits _ H). simpl.
  rewrite (strip_digits _ H). destruct s as [|c s]; [done|]. simpl.
  by rewrite (strip_digits _ H).
Qed.

Lemma means_all_digits s : all_digits s = true -> s <> "" -> means_all s = false.
Proof.
  intros H Hne. unfold means_all. destruct s as [|c s]; [done|].
  simpl in H. apply andb_prop in H as [Hc _].
  destruct c as [[] [] [] [] [] [] [] []]; try done.
Qed.

(** Reading a decimal numeral digit by digit gives its value. *)
Lemma digits_from_uint d a nd :
  PyStr.digits_from false (Z.of_nat a) nd (NilEmpty.string_of_uint d)
  = Some (Z.of_nat (Nat.of_uint_acc d a), (nd + Decimal.nb_digits d)%nat).
Proof.
  revert a nd. induction d; intros a nd; simpl;
    try (match goal with
         | |- PyStr.digits_from false ?z _ _ = _ =>
             match goal with
             | |- context [Nat.of_uint_acc d ?b] =>
                 replace z with (Z.of_nat b)
                   by (unfold PyStr.digit_val; simpl; rewrite Nat.tail_mul_spec; lia)
             end
         end; rewrite IHd; do 2 f_equal; lia).
  do 2 f_equal. lia.
Qed.

Lemma int_uint m d :
  d <> Decimal.Nil -> (Decimal.nb_digits d <= 640)%nat ->
  PyStr.int m (NilEmpty.string_of_uint d) = Some (Z.of_nat (Nat.of_uint d)).
Proof.
  intros Hd Hn. pose proof (digits_from_uint d 0 0) as Hdf.
  change (Z.of_nat 0) with 0 in Hdf.
  assert (Hlim : ((640 <? Decimal.nb_digits d)%nat && negb (m =? 0)%nat
                  && (m <? Decimal.nb_digits d)%nat)%bool = false).
  { destruct (Nat.ltb_spec 640 (Decimal.nb_digits d)); [lia|done]. }
  destruct d; try done;
    unfold PyStr.int; simpl NilEmpty.string_of_uint in *;
    unfold PyStr.unsigned_from; cbv beta iota;
    change (PyStr.is_digit _) with true; cbv iota;
    rewrite Hdf; cbn [Nat.add]; rewrite Hlim; reflexivity.
Qed.

Lemma small_numerals :
  forallb (fun n => (Decimal.nb_digits (Nat.to_uint n) <=? 640)%nat) (seq 0 641) = true.
Proof. vm_compute. reflexivity. Qed.

Lemma int_of_nat m n :
  (n <= 640)%nat -> PyStr.int m (PyStr.of_nat n) = Some (Z.of_nat n).
Proof.
  intros Hn. unfold PyStr.of_nat, NilZero.string_of_uint.
  assert (Hnn : Nat.to_uint n <> Decimal.Nil).
  { intros H0. pose proof (DecimalNat.Unsigned.of_to n) as Hof.
    rewrite H0 in Hof. simpl in Hof. subst n. discriminate H0. }
  assert (Hnb : (Decimal.nb_digits (Nat.to_uint n) <= 640)%nat).
  { pose proof small_numerals as H. rewrite forallb_forall in H.
    specialize (H n). rewrite in_seq in H. apply Nat.leb_le, H. lia. }
  pose proof (int_uint m _ Hnn Hnb) as Hint.
  rewrite DecimalNat.Unsigned.of_to in Hint.
  destruct (Nat.to_uint n) eqn:E; try done.
Qed.

Lemma enumerate_lookup {A} (l : list A) start k x :
  l !! k = Some x -> enumerate start l !! k = Some ((start + k)%nat, x).
Proof.
  revert start k. induction l as [|y l IH]; intros start [|k]; simpl; try done.
  - intros [= ->]. by rewrite Nat.add_0_r.
  - intros H. rewrite (IH (S start) k H). do 2 f_equal. lia.
Qed.

(** X14: the menu shows the [k]-th profile of the registry with the number
    [k] (counting from 1), and typing that number selects exactly that
    profile (for a registry of at most 640 profiles, so that no numeral
    comes near the interpreter's limit on the digits of an integer). *)
Theorem menu_number_selects_profile (registry : list (string * string)) (k : nat)
        (p : string * string) (rest : list string) (w : World) :
  registry !! k = Some p ->
  (length registry <= 640)%nat ->
  menu registry !! S k
  = Some (Stdout ("  " +:+ PyStr.of_nat (S k) +:+ ") " +:+ fst p
                  +:+ "  ->  nmap " +:+ snd p))
  /\ interactive_choose_scans registry (with_stdin (PyStr.of_nat (S k) :: rest) w)
     = (Ok [p], with_stdin rest (emits (menu registry) w)).
Proof.
  intros Hk Hlen. pose proof (lookup_lt_Some _ _ _ Hk) as Hlt. split.
  - unfold menu. simpl. rewrite lookup_app_l.
    2:{ rewrite length_map. apply lookup_lt_is_Some.
        rewrite (enumerate_lookup _ 1 _ _ Hk). by eauto. }
    rewrite list_lookup_fmap, (enumerate_lookup _ 1 _ _ Hk). simpl.
    by destruct p.
  - destruct (of_nat_all_digits (S k)) as [Hd Hne].
    rewrite (interactive_choose_scans_eq registry (PyStr.of_nat (S k)) rest) by done.
    rewrite choose_from_eq, (strip_digits _ Hd), (lower_digits _ Hd).
    rewrite (means_all_digits _ Hd Hne), (tokens_digits _ Hd Hne).
    cbn [ints]. rewrite int_of_nat by lia.
    assert (Hr : in_range registry (Z.of_nat (S k)) = true).
    { unfold in_range. apply andb_true_intro. split; apply Z.leb_le; lia. }
    assert (Hp : registry !! Z.to_nat (Z.of_nat (S k) - 1) = Some p).
    { by replace (Z.to_nat (Z.of_nat (S k) - 1)) with k by lia. }
    generalize dependent (Z.of_nat (S k)). intros i Hr Hp.
    unfold chosen. simpl. by rewrite Hr, Hp.
Qed.

Lemma menu_number_selects_profile_witness :
  menu SCANS !! 5%nat
  = Some (Stdout "  5) os_detection  ->  nmap -O -sV -T4 -Pn")
  /\ interactive_choose_scans SCANS
       (with_stdin ["5"] (world_of ["nmap_auto_banner.py"; "10.0.0.5"] [] (Some 0)
                                   (fun _ _ => 0)))
     = (Ok [("os_detection", "-O -sV -T4 -Pn")],
        with_stdin [] (emits (menu SCANS)
          (world_of ["nmap_auto_banner.py"; "10.0.0.5"] [] (Some 0) (fun _ _ => 0)))).
Proof.
  apply (menu_number_selects_profile SCANS 4 ("os_detection", "-O -sV -T4 -Pn") []
           (world_of ["nmap_auto_banner.py"; "10.0.0.5"] [] (Some 0) (fun _ _ => 0))).
  - reflexivity.
  - simpl. lia.
Defined.

(** X15: the answer "all" to the prompt for the picks is recognised in any
    spelling of its letters and with blanks around it, and so is a blank
    line: the whole registry is returned and no warning is printed. *)
Theorem all_in_any_case (registry : list (string * string))
        (line : string) (rest : list string) (w : World) :
  stdin w = line :: rest ->
  PyStr.lower (PyStr.strip line) = "all" \/ PyStr.strip line = "" ->
  interactive_choose_scans registry w
  = (Ok registry, with_stdin rest (emits (menu registry) w)).
Proof.
  intros Hin Hall. apply (means_all_choose registry line rest w Hin).
  unfold means_all. destruct Hall as [Hall | Hall]; rewrite Hall; reflexivity.
Qed.

Lemma all_in_any_case_witness :
  interactive_choose_scans SCANS
    (world_of ["nmap_auto_banner.py"; "10.0.0.5"] ["  AlL "; "x"] (Some 0) (fun _ _ => 0))
  = (Ok SCANS,
     with_stdin ["x"] (emits (menu SCANS)
       (world_of ["nmap_auto_banner.py"; "10.0.0.5"] ["  AlL "; "x"] (Some 0) (fun _ _ => 0)))).
Proof.
  apply (all_in_any_case SCANS "  AlL " ["x"]
           (world_of ["nmap_auto_banner.py"; "10.0.0.5"] ["  AlL "; "x"] (Some 0) (fun _ _ => 0))).
  - reflexivity.
  - left. reflexivity.
Defined.
